(** * The local dev registry of wrangler and the issue triager's timestamp store

    A shallow embedding of
    - [packages/wrangler/src/dev-registry.tsx]: the service registry on the
      well-known port 6284, its HTTP client functions and the hand-off of the
      registry from an exiting owner to another wrangler process;
    - the [IssuesStore] durable object of the issue triager, and the paging
      loop of [getIssuesWithComments] that shares its file.

    Every wrangler process runs the same module.  Its module-level variables
    ([server], [workers], [handOffReceiverServer], [handOffReceiverPort]) are
    the fields of [Proc]; the machine (who holds port 6284, which ephemeral
    ports carry a hand-off receiver) is [World].  The asynchronous functions of
    the source are computations in a state, error and trace monad [M] over
    [World]; [await] is sequencing, and one call runs to its end before the
    next starts.

    The libraries the module calls are modelled by what the code relies on:
    - express routes a request by method and path; a worker name is one
      segment of the path;
    - [bodyParser.json()] parses a body of type application/json and leaves
      [req.body = {}] for any other request; [fetch] sends a string body as
      text/plain unless the caller names a content type;
    - JSON.parse gives back the value JSON.stringify printed;
    - [terminate()] of http-terminator closes the server and resolves;
    - a host name resolves to this machine unless the outside fails the
      request;
    - [Math.random()] is an exact rational and its product with the length is
      exact;
    - a JavaScript object used as a map is a [gmap], and [Object.entries]
      lists it in the order of [map_to_list]. *)

From Stdlib Require Import ZArith QArith Qround String List Lia.
From stdpp Require Import base option list strings gmap fin_maps.

Open Scope string_scope.
Open Scope Z_scope.
Open Scope list_scope.

(* ===================================================================== *)
(** ** Data model *)
(* ===================================================================== *)

Module WD.

Inductive Protocol := http | https.
Inductive Mode := local | remote.

Record DurableObject := mkDurableObject { name : string; className : string }.

(** [type WorkerDefinition], lines 25-35.  An optional field, or one whose type
    includes [undefined], is an [option]: JSON.stringify drops both alike. *)
Record WorkerDefinition := mkWorkerDefinition {
  port : option Z;
  protocol : option Protocol;
  host : option string;
  mode : Mode;
  headers : option (list (string * string));
  durableObjects : list DurableObject;
  durableObjectsHost : option string;
  durableObjectsPort : option Z;
  handOffReceiverPort : option Z;
}.

End WD.

Abbreviation WorkerDefinition := WD.WorkerDefinition.

(** [type WorkerRegistry = Record<string, WorkerDefinition>] *)
Abbreviation WorkerRegistry := (gmap string WorkerDefinition).

(** The object spread [{ ...definition, handOffReceiverPort }] of line 187: the
    module's variable overrides the field, also when it is [undefined]. *)
Definition spread_handOffReceiverPort (definition : WorkerDefinition)
    (p : option Z) : WorkerDefinition :=
  WD.mkWorkerDefinition
    (WD.port definition) (WD.protocol definition) (WD.host definition)
    (WD.mode definition) (WD.headers definition) (WD.durableObjects definition)
    (WD.durableObjectsHost definition) (WD.durableObjectsPort definition) p.

(** A JavaScript error, as far as the code inspects it: [e.cause?.code]. *)
Record Error := mkError { err_message : string; err_cause_code : option string }.

(** [["ECONNRESET", "ECONNREFUSED"].includes(e.cause?.code || "___")],
    lines 191, 213 and 234. *)
Definition is_absence (e : Error) : bool :=
  let code := match err_cause_code e with
              | Some c => if String.eqb c "" then "___" else c
              | None => "___"
              end in
  existsb (String.eqb code) ["ECONNRESET"; "ECONNREFUSED"].

Definition DEV_REGISTRY_PORT : Z := 6284.

Record Url := mkUrl { url_host : string; url_port : Z; url_path : list string }.

(** [`${DEV_REGISTRY_HOST}/...`]: a URL on [http://localhost:6284]. *)
Definition DEV_REGISTRY_HOST (path : list string) : Url :=
  mkUrl "localhost" DEV_REGISTRY_PORT path.

(** The objects the code serialises with JSON.stringify.  The wire carries the
    value: parsing what JSON.stringify printed gives the value back. *)
Inductive Json :=
| JDefinition (d : WorkerDefinition)
| JRegistry (r : WorkerRegistry).

Inductive Method := GET | POST | DELETE.

(** The arguments of a [fetch] call: URL, method, the headers the caller
    passes, body. *)
Record Request := mkRequest {
  req_url : Url;
  req_method : Method;
  req_headers : list (string * string);
  req_body : option Json;
}.

Inductive ResponseBody :=
| RNull                            (* res.json(null) *)
| RRegistry (r : WorkerRegistry)   (* res.json(workers) *)
| RText (s : string).              (* not JSON, e.g. express' 404 page *)

Record Response := mkResponse { resp_status : Z; resp_body : ResponseBody }.

Definition pid := nat.

Inductive ServerKind := Registry | Receiver.
Inductive Level := LDebug | LError.

(** What a run does to the outside, in order. *)
Inductive Event :=
| EListen (me : pid) (address : option Z)   (* handOffReceiverServer.listen(0); address() *)
| EProbe (me : pid)                         (* isPortAvailable() *)
| EBind (me : pid)                          (* server.listen(DEV_REGISTRY_PORT) *)
| EFetch (me : pid) (req : Request)
| ETerminate (me : pid) (which : ServerKind)
| ELogger (lvl : Level) (msg : string) (e : option Error)
| EConsoleLog (msg : string)
| EConsoleError (e : Error).

(** The module-level variables of one process.  [terminator] is assigned
    together with [server] (lines 88-89) and [handOffReceiverTerminator]
    together with [handOffReceiverServer] (lines 167-170), so each pair is one
    field.  [handOffReceiverServer] records the address the latest receiver
    server listens on, if it listens. *)
Record Proc := mkProc {
  server : bool;
  workers : WorkerRegistry;
  handOffReceiverServer : option (option Z);
  handOffReceiverPort : option Z;
}.

Record World := mkWorld {
  procs : pid -> Proc;
  registry_bound : option pid;   (* the process listening on port 6284 *)
  receivers : gmap Z pid;        (* ephemeral port |-> process listening there *)
}.

(** A freshly loaded module: [let workers = {}], everything else undefined. *)
Definition fresh_proc : Proc := mkProc false ∅ None None.
Definition fresh_world : World := mkWorld (fun _ => fresh_proc) None ∅.

Definition upd (f : pid -> Proc) (me : pid) (p : Proc) : pid -> Proc :=
  fun q => if Nat.eqb q me then p else f q.

(* ===================================================================== *)
(** ** The monad of asynchronous functions *)
(* ===================================================================== *)

Inductive Result (A : Type) :=
| Ok (a : A)
| Throw (e : Error).
Arguments Ok {A} a.
Arguments Throw {A} e.

Definition M (A : Type) : Type := World -> Result A * World * list Event.

Definition ret {A} (a : A) : M A := fun w => (Ok a, w, []).
Definition throw {A} (e : Error) : M A := fun w => (Throw e, w, []).
Definition emit (ev : Event) : M unit := fun w => (Ok tt, w, [ev]).

Definition bind {A B} (m : M A) (k : A -> M B) : M B :=
  fun w =>
    match m w with
    | (Ok a, w1, t1) => let '(r, w2, t2) := k a w1 in (r, w2, t1 ++ t2)
    | (Throw e, w1, t1) => (Throw e, w1, t1)
    end.

(** [try { m } catch (e) { h e }] *)
Definition try_catch {A} (m : M A) (h : Error -> M A) : M A :=
  fun w =>
    match m w with
    | (Ok a, w1, t1) => (Ok a, w1, t1)
    | (Throw e, w1, t1) => let '(r, w2, t2) := h e w1 in (r, w2, t1 ++ t2)
    end.

Declare Scope async_scope.
Delimit Scope async_scope with async.
Notation "x <- m ;; k" := (bind m (fun x => k))
  (at level 100, m at next level, right associativity) : async_scope.
Notation "m ;;; k" := (bind m (fun _ => k))
  (at level 100, right associativity) : async_scope.
Open Scope async_scope.

Definition get_proc (me : pid) : M Proc := fun w => (Ok (procs w me), w, []).

Definition set_proc (me : pid) (p : Proc) : M unit :=
  fun w => (Ok tt, mkWorld (upd (procs w) me p) (registry_bound w) (receivers w), []).

Definition logger_debug (msg : string) (e : option Error) : M unit :=
  emit (ELogger LDebug msg e).
Definition logger_error (msg : string) (e : option Error) : M unit :=
  emit (ELogger LError msg e).
Definition console_log (msg : string) : M unit := emit (EConsoleLog msg).
Definition console_error (e : Error) : M unit := emit (EConsoleError e).

(** What the outside decides during one call: the address [listen(0)] yields,
    the value of [Math.random()], which requests the network fails (DNS
    failure, reset, a foreign server answering) instead of delivering, and
    whether the probe's bind fails with something other than EADDRINUSE. *)
Inductive Fault :=
| Throws (e : Error)
| Replies (resp : Response).

Record Env := mkEnv {
  env_listen : option Z;
  env_random : Q;
  env_fault : Request -> option Fault;
  env_probe_error : option Error;
}.

(* ===================================================================== *)
(** ** The servers *)
(* ===================================================================== *)

(** [isPortAvailable], lines 40-58: bind the well-known port and release it.
    EADDRINUSE resolves to false, any other bind error rejects. *)
Definition isPortAvailable (env : Env) (me : pid) : M bool :=
  emit (EProbe me) ;;;
  match env_probe_error env with
  | Some err => throw err
  | None => fun w => (Ok (bool_decide (registry_bound w = None)), w, [])
  end.

(** [server.listen(DEV_REGISTRY_PORT)] after [server = http.createServer(app)]. *)
Definition listen_registry (me : pid) : M unit :=
  fun w =>
    let p := procs w me in
    (Ok tt,
     mkWorld (upd (procs w) me
                (mkProc true (workers p) (handOffReceiverServer p) (handOffReceiverPort p)))
             (Some me) (receivers w),
     [EBind me]).

(** [startWorkerRegistry], lines 68-92. *)
Definition startWorkerRegistry (env : Env) (me : pid) : M unit :=
  available <- isPortAvailable env me ;;
  p <- get_proc me ;;
  if available && negb (server p) then listen_registry me else ret tt.

(** The header a request carries on the wire: the caller's, or the one [fetch]
    attaches to a string body when the caller gives none. *)
Definition content_type (req : Request) : option string :=
  match List.find (fun h => String.eqb (fst h) "Content-Type") (req_headers req) with
  | Some h => Some (snd h)
  | None => match req_body req with
            | Some _ => Some "text/plain;charset=UTF-8"
            | None => None
            end
  end.

(** [jsonBodyParser = bodyParser.json()], line 60: [req.body] is the parsed
    body of a request of type application/json, and the empty object [{}] for
    any other request. *)
Definition jsonBodyParser (req : Request) : Json :=
  match content_type req, req_body req with
  | Some ct, Some body => if String.eqb ct "application/json" then body else JRegistry ∅
  | _, _ => JRegistry ∅
  end.

Definition set_workers (me : pid) (ws : WorkerRegistry) : M unit :=
  p <- get_proc me ;;
  set_proc me (mkProc (server p) ws (handOffReceiverServer p) (handOffReceiverPort p)).

Definition not_found : Response := mkResponse 404 (RText "Cannot handle").

(** The express app of the registry, lines 72-87, run in its process [q].  A
    body that is not a WorkerDefinition has no value in [WorkerRegistry]'s
    declared type; the typed model stores nothing for it. *)
Definition registry_app (q : pid) (req : Request) : M Response :=
  match req_method req, url_path (req_url req) with
  | GET, ["workers"] =>
      p <- get_proc q ;;
      ret (mkResponse 200 (RRegistry (workers p)))
  | POST, ["workers"; workerId] =>
      p <- get_proc q ;;
      match jsonBodyParser req with
      | JDefinition body => set_workers q (<[workerId := body]> (workers p))
      | JRegistry _ => ret tt
      end ;;;
      ret (mkResponse 200 RNull)
  | DELETE, ["workers"; workerId] =>
      p <- get_proc q ;;
      set_workers q (delete workerId (workers p)) ;;;
      ret (mkResponse 200 RNull)
  | DELETE, ["workers"] =>
      set_workers q ∅ ;;;
      ret (mkResponse 200 RNull)
  | _, _ => ret not_found
  end.

Definition headers_timeout : Error :=
  mkError "fetch failed" (Some "UND_ERR_HEADERS_TIMEOUT").

(** The express app of the hand-off receiver, lines 159-165, run in its
    process [q].  When [startWorkerRegistry] rejects, the handler never
    responds and the sender's [fetch] fails. *)
Definition handOffReceiverApp (env : Env) (q : pid) (req : Request) : M Response :=
  match req_method req, url_path (req_url req) with
  | POST, [] =>
      try_catch
        (match jsonBodyParser req with
         | JRegistry body => set_workers q body
         | JDefinition _ => ret tt
         end ;;;
         startWorkerRegistry env q ;;;
         ret (mkResponse 200 RNull))
        (fun _ => throw headers_timeout)
  | _, _ => ret not_found
  end.

Definition connection_refused : Error :=
  mkError "fetch failed" (Some "ECONNREFUSED").

(** A request on the machine reaches whoever listens on its port. *)
Definition deliver (env : Env) (req : Request) : M Response :=
  fun w =>
    if Z.eqb (url_port (req_url req)) DEV_REGISTRY_PORT then
      match registry_bound w with
      | Some q => registry_app q req w
      | None => throw connection_refused w
      end
    else
      match receivers w !! url_port (req_url req) with
      | Some q => handOffReceiverApp env q req w
      | None => throw connection_refused w
      end.

(** [await fetch(url, init)] *)
Definition fetch (env : Env) (me : pid) (req : Request) : M Response :=
  emit (EFetch me req) ;;;
  match env_fault env req with
  | Some (Throws err) => throw err
  | Some (Replies resp) => ret resp
  | None => deliver env req
  end.

(** [await response.json()]: a body that is not JSON raises a SyntaxError,
    which has no cause. *)
Definition response_json (resp : Response) : M (option WorkerRegistry) :=
  match resp_body resp with
  | RRegistry r => ret (Some r)
  | RNull => ret None
  | RText _ => throw (mkError "Unexpected token in JSON" None)
  end.

(* ===================================================================== *)
(** ** Hand-off *)
(* ===================================================================== *)

(** [stopWorkerRegistry], lines 141-143: [terminator?.terminate()] closes this
    process's registry server, which frees port 6284 if it held it. *)
Definition stopWorkerRegistry (me : pid) : M unit :=
  p <- get_proc me ;;
  if server p then
    emit (ETerminate me Registry) ;;;
    fun w =>
      (Ok tt,
       mkWorld (procs w)
               (if bool_decide (registry_bound w = Some me) then None else registry_bound w)
               (receivers w),
       [])
  else ret tt.

(** [stopHandOffReceiverServer], lines 148-150. *)
Definition stopHandOffReceiverServer (me : pid) : M unit :=
  p <- get_proc me ;;
  match handOffReceiverServer p with
  | None => ret tt
  | Some address =>
      emit (ETerminate me Receiver) ;;;
      fun w =>
        (Ok tt,
         mkWorld (procs w) (registry_bound w)
                 (match address with
                  | Some a => if bool_decide (receivers w !! a = Some me)
                              then delete a (receivers w) else receivers w
                  | None => receivers w
                  end),
         [])
  end.

(** The filter of lines 97-99. *)
Definition handOffable (own : option Z) (entry : string * WorkerDefinition) : bool :=
  match WD.handOffReceiverPort (snd entry) with
  | None => false
  | Some p => negb (bool_decide (own = Some p))
  end.

(** [Object.entries(workers).filter(...)], lines 96-100. *)
Definition handOffableWorkers (ws : WorkerRegistry) (own : option Z)
    : list (string * WorkerDefinition) :=
  List.filter (handOffable own) (map_to_list ws).

(** [Math.floor(random * length)], line 105, on exact rationals. *)
Definition chosen_index (random : Q) (length : nat) : Z :=
  Qfloor (random * inject_Z (Z.of_nat length)).

(** [array[i]]: [undefined] outside the array. *)
Definition array_get {A} (l : list A) (i : Z) : option A :=
  if Z.ltb i 0 then None else l !! Z.to_nat i.

Definition type_error : Error := mkError "undefined is not iterable" None.

(** The template [`http://${chosenHandOff.host}:${chosenHandOff.handOffReceiverPort}/`]. *)
Definition handOff_url (chosenHandOff : WorkerDefinition) : Url :=
  mkUrl (default "undefined" (WD.host chosenHandOff))
        (default 0 (WD.handOffReceiverPort chosenHandOff)) [].

(** The request of lines 116-122: no headers. *)
Definition handOff_request (chosenHandOff : WorkerDefinition) (ws : WorkerRegistry)
    : Request :=
  mkRequest (handOff_url chosenHandOff) POST [] (Some (JRegistry ws)).

(** [handOff], lines 94-136. *)
Definition handOff (env : Env) (me : pid) : M unit :=
  p <- get_proc me ;;
  (if server p then
     let candidates := handOffableWorkers (workers p) (handOffReceiverPort p) in
     if Nat.ltb 0 (length candidates) then
       match array_get candidates (chosen_index (env_random env) (length candidates)) with
       | None => throw type_error
       | Some (chosenHandOffName, chosenHandOff) =>
           logger_debug
             ("Handing off local service registry to " +:+ chosenHandOffName +:+ "...")
             None ;;;
           try_catch
             (console_log "stopping registry" ;;;
              stopWorkerRegistry me ;;;
              console_log "passing off" ;;;
              p' <- get_proc me ;;
              _ <- fetch env me (handOff_request chosenHandOff (workers p')) ;;
              console_log "done")
             (fun e => console_error e)
       end
     else
       logger_debug
         "No other wrangler processes available to hand off local service registry to."
         None
   else ret tt) ;;;
  stopWorkerRegistry me ;;;
  stopHandOffReceiverServer me.

(* ===================================================================== *)
(** ** The client functions *)
(* ===================================================================== *)

(** Lines 167-172: a new receiver server replaces the module's handle and
    listens on the port the system picks; an earlier server keeps listening. *)
Definition listen_receiver (env : Env) (me : pid) : M (option Z) :=
  fun w =>
    let p := procs w me in
    (Ok (env_listen env),
     mkWorld (upd (procs w) me
                (mkProc (server p) (workers p) (Some (env_listen env)) (handOffReceiverPort p)))
             (registry_bound w)
             (match env_listen env with
              | Some a => <[a := me]> (receivers w)
              | None => receivers w
              end),
     [EListen me (env_listen env)]).

Definition set_handOffReceiverPort (me : pid) (a : Z) : M unit :=
  p <- get_proc me ;;
  set_proc me (mkProc (server p) (workers p) (handOffReceiverServer p) (Some a)).

(** The request of lines 182-188. *)
Definition register_request (name : string) (definition : WorkerDefinition)
    (own : option Z) : Request :=
  mkRequest (DEV_REGISTRY_HOST ["workers"; name]) POST
            [("Content-Type", "application/json")]
            (Some (JDefinition (spread_handOffReceiverPort definition own))).

(** [registerWorker], lines 155-200. *)
Definition registerWorker (env : Env) (me : pid) (name : string)
    (definition : WorkerDefinition) : M (option Response) :=
  handOffReceiverAddress <- listen_receiver env me ;;
  match handOffReceiverAddress with
  | None =>
      logger_error "Could not create hand-off receiver for local service registry" None
  | Some a => set_handOffReceiverPort me a
  end ;;;
  try_catch
    (p <- get_proc me ;;
     resp <- fetch env me (register_request name definition (handOffReceiverPort p)) ;;
     ret (Some resp))
    (fun e =>
       (if negb (is_absence e)
        then logger_error "Failed to register worker in local service registry" (Some e)
        else logger_debug "Failed to register worker in local service registry" (Some e)) ;;;
       ret None).

Definition unregister_request (name : string) : Request :=
  mkRequest (DEV_REGISTRY_HOST ["workers"; name]) DELETE [] None.

(** [unregisterWorker], lines 205-221. *)
Definition unregisterWorker (env : Env) (me : pid) (name : string) : M unit :=
  try_catch
    (_ <- fetch env me (unregister_request name) ;;
     handOff env me)
    (fun e => if negb (is_absence e) then throw e else ret tt).

Definition workers_request : Request :=
  mkRequest (DEV_REGISTRY_HOST ["workers"]) GET [] None.

(** [getRegisteredWorkers], lines 226-241; [None] is [undefined]. *)
Definition getRegisteredWorkers (env : Env) (me : pid) : M (option WorkerRegistry) :=
  try_catch
    (response <- fetch env me workers_request ;;
     response_json response)
    (fun e => if negb (is_absence e) then throw e else ret None).

(** The parts of [Config] (declared in [./config]) that the code reads:
    [serviceBinding.service], [durableObjects.bindings] and
    [durableObjectBinding.script_name]; a binding need not name a script. *)
Record ServiceBinding := mkServiceBinding { service : string }.
Record DurableObjectBinding := mkDurableObjectBinding { script_name : option string }.
Record DurableObjectsConfig := mkDurableObjectsConfig { bindings : list DurableObjectBinding }.

(** The predicate of lines 264-265. *)
Definition bound_to (serviceNames : list string) (durableObjectServices : list (option string))
    (entry : string * WorkerDefinition) : bool :=
  existsb (String.eqb (fst entry)) serviceNames
  || existsb (fun s => match s with
                       | Some n => String.eqb (fst entry) n
                       | None => false
                       end) durableObjectServices.

(** [getBoundRegisteredWorkers], lines 247-269. *)
Definition getBoundRegisteredWorkers (env : Env) (me : pid)
    (services : option (list ServiceBinding))
    (durableObjects : option DurableObjectsConfig) : M WorkerRegistry :=
  let serviceNames := List.map service (default [] services) in
  let durableObjectServices :=
    List.map script_name (bindings (default (mkDurableObjectsConfig []) durableObjects)) in
  workerDefinitions <- getRegisteredWorkers env me ;;
  let filteredWorkers : WorkerRegistry :=
    list_to_map
      (List.filter (bound_to serviceNames durableObjectServices)
                   (map_to_list (default ∅ workerDefinitions))) in
  ret filteredWorkers.

(* ===================================================================== *)
(** ** The timestamp store of the issue triager *)
(* ===================================================================== *)

Module IssuesStore.

(** [this.ctx.storage] of the durable object: string keys, and under the one
    key the class uses, string values. *)
Abbreviation Storage := (gmap string string).

(** A string is truthy when it is not empty. *)
Definition truthy (s : string) : bool := negb (String.eqb s "").

(** [getLastUpdatedTimestamp]: the returned string and what [console.log]
    printed. *)
Definition getLastUpdatedTimestamp (storage : Storage) : string * list (option string) :=
  let timestamp := storage !! "lastUpdatedTimestamp" in
  (match timestamp with
   | Some t => if truthy t then t else "2000-01-01T00:00:00Z"
   | None => "2000-01-01T00:00:00Z"
   end,
   [timestamp]).

(** [setLastUpdatedTimestamp]: the storage after the put and what
    [console.log] printed. *)
Definition setLastUpdatedTimestamp (timestamp : string) (storage : Storage)
    : Storage * list (option string) :=
  let storage' := <["lastUpdatedTimestamp" := timestamp]> storage in
  (storage', [storage' !! "lastUpdatedTimestamp"]).

End IssuesStore.

(* ===================================================================== *)
(** ** Notions the statements use *)
(* ===================================================================== *)

(** [handled w w']: between [w] and [w'] only requests were handled and
    registry servers started or stopped.  No receiver was opened or closed, no
    module lost its server handle, and a process that holds port 6284 in [w']
    held it in [w] or got its server handle in between. *)
Record handled (w w' : World) : Prop := mkHandled {
  handled_receivers : receivers w' = receivers w;
  handled_receiver_server :
    forall x, handOffReceiverServer (procs w' x) = handOffReceiverServer (procs w x);
  handled_receiver_port :
    forall x, handOffReceiverPort (procs w' x) = handOffReceiverPort (procs w x);
  handled_server :
    forall x, server (procs w x) = true -> server (procs w' x) = true;
  handled_bound :
    forall x, registry_bound w' = Some x ->
              registry_bound w = Some x
              \/ (server (procs w x) = false /\ server (procs w' x) = true);
}.

(** Whoever holds port 6284 has its [server] handle assigned. *)
Definition owner_has_handle (w : World) : Prop :=
  forall q, registry_bound w = Some q -> server (procs w q) = true.

(** Replacing the registry of one module. *)
Definition with_workers (q : pid) (ws : gmap string WorkerDefinition) (w : World) : World :=
  mkWorld
    (upd (procs w) q
       (mkProc (server (procs w q)) ws
          (handOffReceiverServer (procs w q)) (handOffReceiverPort (procs w q))))
    (registry_bound w) (receivers w).

(** The world once [q]'s registry server listens on port 6284. *)
Definition with_registry (q : pid) (w : World) : World :=
  mkWorld
    (upd (procs w) q
       (mkProc true (workers (procs w q))
          (handOffReceiverServer (procs w q)) (handOffReceiverPort (procs w q))))
    (Some q) (receivers w).

Definition shutdown (me : pid) : M unit :=
  stopWorkerRegistry me ;;; stopHandOffReceiverServer me.

(** A count as a rational number. *)
Definition count_Q (n : nat) : Q := inject_Z (Z.of_nat n).

(** The world once [me]'s registry server is closed. *)
Definition registry_closed (me : pid) (w : World) : World :=
  mkWorld (procs w)
          (if bool_decide (registry_bound w = Some me) then None else registry_bound w)
          (receivers w).

(** The world once [me]'s latest receiver server is closed. *)
Definition receiver_closed (me : pid) (address : option Z) (w : World) : World :=
  mkWorld (procs w) (registry_bound w)
          (match address with
           | Some a => if bool_decide (receivers w !! a = Some me)
                       then delete a (receivers w) else receivers w
           | None => receivers w
           end).

Definition shutdown_world (me : pid) (w : World) : World :=
  let w1 := if server (procs w me) then registry_closed me w else w in
  match handOffReceiverServer (procs w me) with
  | Some address => receiver_closed me address w1
  | None => w1
  end.

Definition shutdown_events (me : pid) (p : Proc) : list Event :=
  (if server p then [ETerminate me Registry] else [])
  ++ (match handOffReceiverServer p with
      | Some _ => [ETerminate me Receiver]
      | None => []
      end).

Definition handing_off_message (chosenHandOffName : string) : string :=
  "Handing off local service registry to " +:+ chosenHandOffName +:+ "...".

Definition no_candidate_message : string :=
  "No other wrangler processes available to hand off local service registry to.".

(** What the [try] block of lines 112-126 leaves in the trace after the
    request: "done", or the error it caught. *)
Definition handOff_outcome_event (r : Result Response) : Event :=
  match r with
  | Ok _ => EConsoleLog "done"
  | Throw e => EConsoleError e
  end.

(** Sample data: a local worker on 127.0.0.1:8787. *)
Definition sample_definition : WorkerDefinition :=
  WD.mkWorkerDefinition (Some 8787) (Some WD.http) (Some "127.0.0.1") WD.local
                        None [] None None None.

(** A quiet outside: [listen(0)] yields [address], [Math.random()] is 1/2 and
    the network delivers every request. *)
Definition quiet (address : option Z) : Env :=
  mkEnv address (1 # 2) (fun _ => None) None.

Definition world_of {A} (run : Result A * World * list Event) : World := snd (fst run).
Definition result_of {A} (run : Result A * World * list Event) : Result A := fst (fst run).
Definition trace_of {A} (run : Result A * World * list Event) : list Event := snd run.

(** Process 0 starts the registry and registers "a" (receiver on 5000); then
    process 1 registers "b" (receiver on 5001). *)
Definition world_owner : World :=
  world_of (registerWorker (quiet (Some 5000)) 0%nat "a" sample_definition
              (world_of (startWorkerRegistry (quiet None) 0%nat fresh_world))).

Definition world_two : World :=
  world_of (registerWorker (quiet (Some 5001)) 1%nat "b" sample_definition world_owner).

(** Process 0 registered "a" while nobody held port 6284: its receiver listens
    on 5000 and no registry exists. *)
Definition world_no_registry : World :=
  world_of (registerWorker (quiet (Some 5000)) 0%nat "a" sample_definition fresh_world).

Definition no_receiver_message : string :=
  "Could not create hand-off receiver for local service registry".

Definition register_failed_message : string :=
  "Failed to register worker in local service registry".

(** The value of the module's [handOffReceiverPort] after lines 172-179. *)
Definition port_after_listen (env : Env) (p : Proc) : option Z :=
  match env_listen env with
  | Some a => Some a
  | None => handOffReceiverPort p
  end.

(** What lines 167-179 print. *)
Definition listen_events (env : Env) (me : pid) : list Event :=
  EListen me (env_listen env)
  :: match env_listen env with
     | Some _ => []
     | None => [ELogger LError no_receiver_message None]
     end.

(** What the [catch] of lines 189-199 prints. *)
Definition register_outcome_events (r : Result Response) : list Event :=
  match r with
  | Ok _ => []
  | Throw e =>
      [ELogger (if is_absence e then LDebug else LError) register_failed_message (Some e)]
  end.

(** The registry of the filtering example: svcA, svcB and other. *)
Definition world_three_services : World :=
  mkWorld
    (fun _ => mkProc true
                (<["svcA" := sample_definition]>
                   (<["svcB" := sample_definition]>
                      (<["other" := sample_definition]> ∅)))
                None None)
    (Some 0%nat) ∅.

(** A registry posted as application/json. *)
Definition json_handOff_request (url : Url) (ws : gmap string WorkerDefinition) : Request :=
  mkRequest url POST [("Content-Type", "application/json")] (Some (JRegistry ws)).

(* ===================================================================== *)
(** ** Fetching the issues of the repository, page by page *)
(* ===================================================================== *)

Module GetIssues.

Definition tab : string := String (Ascii.ascii_of_nat 9) EmptyString.
Definition nl : string := String (Ascii.ascii_of_nat 10) EmptyString.
Definition quote : string := String (Ascii.ascii_of_nat 34) EmptyString.

Fixpoint tabs (n : nat) : string :=
  match n with
  | O => EmptyString
  | S n' => tab +:+ tabs n'
  end.

(** A line of the query template: [n] tabs, the text, a line break. *)
Definition line (n : nat) (text : string) : string := tabs n +:+ text +:+ nl.

(** [cursor ? `, after: "${cursor}"` : ''], line 27: null and the empty string
    are falsy. *)
Definition cursorParam (cursor : option string) : string :=
  match cursor with
  | Some c => if String.eqb c EmptyString then EmptyString
              else ", after: " +:+ quote +:+ c +:+ quote
  | None => EmptyString
  end.

(** [since ? `, filterBy: { since: "${since}" }` : ''], line 28. *)
Definition sinceParam (since : option string) : string :=
  match since with
  | Some s => if String.eqb s EmptyString then EmptyString
              else ", filterBy: { since: " +:+ quote +:+ s +:+ quote +:+ " }"
  | None => EmptyString
  end.

(** The template of lines 30-44; [issueQuery] is imported from
    [./shared/queres]. *)
Definition query (issueQuery : string) (cursor since : option string) : string :=
  nl
  +:+ line 2 "query {"
  +:+ line 3 ("repository(owner: " +:+ quote +:+ "cloudflare" +:+ quote
              +:+ ", name: " +:+ quote +:+ "workers-sdk" +:+ quote +:+ ") {")
  +:+ line 4 ("issues(first: 100 " +:+ sinceParam since +:+ " " +:+ cursorParam cursor
              +:+ ") {")
  +:+ line 5 "nodes {"
  +:+ line 6 issueQuery
  +:+ line 5 "}"
  +:+ line 5 "pageInfo {"
  +:+ line 6 "hasNextPage"
  +:+ line 6 "endCursor"
  +:+ line 5 "}"
  +:+ line 4 "}"
  +:+ line 3 "}"
  +:+ line 2 "}"
  +:+ "  ".

Section Pagination.

(** [GitHubIssueNode], [Issue], [toFormattedIssue] and [issueQuery] are
    imported from [./shared] and [../../shared]. *)
Variable GitHubIssueNode Issue : Type.
Variable toFormattedIssue : GitHubIssueNode -> Issue.
Variable issueQuery : string.

(** [res.data.repository.issues] of [GitHubRepoIssuesResponse], lines 51-63. *)
Record Issues := mkIssues {
  nodes : list GitHubIssueNode;
  endCursor : string;
  hasNextPage : bool;
}.

(** [fetchIssuesWithComments], lines 26-49: the query sent, and the answer of
    [fetchGraphQlResponse] handed on; an error of the request is raised. *)
Definition fetchIssuesWithComments (cursor since : option string)
    (answer : Result Issues) : string * Result Issues :=
  (query issueQuery cursor since, answer).

(** The [while] loop of [getIssuesWithComments], lines 12-21, run against the
    answers the remote gives in order.  The result is [None] while the loop
    still waits for an answer; the second component lists the queries sent. *)
Fixpoint paginate (since : option string) (answers : list (Result Issues))
    (cursor : option string) (allIssues : list Issue)
    : option (Result (list Issue)) * list string :=
  match answers with
  | [] => (None, [query issueQuery cursor since])
  | answer :: later =>
      let '(sent, r) := fetchIssuesWithComments cursor since answer in
      match r with
      | Throw e => (Some (Throw e), [sent])
      | Ok issues =>
          let filteredResults := List.map toFormattedIssue (nodes issues) in
          let allIssues' := allIssues ++ filteredResults in
          if hasNextPage issues
          then let '(res, queries) := paginate since later (Some (endCursor issues)) allIssues' in
               (res, sent :: queries)
          else (Some (Ok allIssues'), [sent])
      end
  end.

(** [getIssuesWithComments], lines 7-24: [cursor] starts as null,
    [hasNextPage] as true and [allIssues] empty. *)
Definition getIssuesWithComments (since : option string) (answers : list (Result Issues))
    : option (Result (list Issue)) * list string :=
  paginate since answers None [].

(** The cursors the loop uses after each of the given pages. *)
Definition cursors_after (pages : list Issues) : list (option string) :=
  List.map (fun issues => Some (endCursor issues)) pages.

End Pagination.

Arguments mkIssues {GitHubIssueNode} nodes endCursor hasNextPage.
Arguments nodes {GitHubIssueNode} i.
Arguments endCursor {GitHubIssueNode} i.
Arguments hasNextPage {GitHubIssueNode} i.

End GetIssues.

(* ===================================================================== *)
(** ** Further notions the statements use *)
(* ===================================================================== *)

(** DELETE /workers, the route of lines 84-87. *)
Definition clear_request : Request :=
  mkRequest (DEV_REGISTRY_HOST ["workers"]) DELETE [] None.

(** Between [w] and [w'] the registry of a module was emptied or left as it
    was, and a module whose registry was left as it was did not newly take
    port 6284. *)
Definition emptied_or_kept (w w' : World) : Prop :=
  forall x,
    workers (procs w' x) = ∅
    \/ (workers (procs w' x) = workers (procs w x)
        /\ (registry_bound w' = Some x -> registry_bound w = Some x)).

(** A second local worker, on port 8788. *)
Definition other_definition : WorkerDefinition :=
  WD.mkWorkerDefinition (Some 8788) (Some WD.http) (Some "127.0.0.1") WD.local
                        None [] None None None.

(* ===================================================================== *)
(** * Properties *)
(* ===================================================================== *)

(** ** The timestamp store *)

(** C10: with nothing stored under the key, [getLastUpdatedTimestamp] returns
    the default '2000-01-01T00:00:00Z'; after [setLastUpdatedTimestamp t] it
    returns [t] when [t] is not empty, and the default when [t] is empty. *)
Theorem IssuesStore_timestamp_round_trip :
  (forall storage : gmap string string,
      storage !! "lastUpdatedTimestamp" = None ->
      fst (IssuesStore.getLastUpdatedTimestamp storage) = "2000-01-01T00:00:00Z")
  /\ (forall (storage : gmap string string) (t : string),
         t <> "" ->
         fst (IssuesStore.getLastUpdatedTimestamp
                (fst (IssuesStore.setLastUpdatedTimestamp t storage))) = t)
  /\ (forall storage : gmap string string,
         fst (IssuesStore.getLastUpdatedTimestamp
                (fst (IssuesStore.setLastUpdatedTimestamp "" storage)))
         = "2000-01-01T00:00:00Z").
Proof.
  split; [| split].
  - intros storage Hnone. unfold IssuesStore.getLastUpdatedTimestamp.
    cbn [fst]. now rewrite Hnone.
  - intros storage t Ht.
    unfold IssuesStore.getLastUpdatedTimestamp, IssuesStore.setLastUpdatedTimestamp.
    cbn [fst]. rewrite lookup_insert_eq. unfold IssuesStore.truthy.
    destruct (String.eqb_spec t ""); [contradiction | reflexivity].
  - intros storage.
    unfold IssuesStore.getLastUpdatedTimestamp, IssuesStore.setLastUpdatedTimestamp.
    cbn [fst]. now rewrite lookup_insert_eq.
Qed.

Lemma IssuesStore_timestamp_round_trip_witness :
  fst (IssuesStore.getLastUpdatedTimestamp ∅) = "2000-01-01T00:00:00Z"
  /\ fst (IssuesStore.getLastUpdatedTimestamp
            (fst (IssuesStore.setLastUpdatedTimestamp "2024-05-01T10:00:00Z" ∅)))
     = "2024-05-01T10:00:00Z".
Proof.
  destruct IssuesStore_timestamp_round_trip as (Hdefault & Hround & _).
  split.
  - apply Hdefault. reflexivity.
  - apply Hround. discriminate.
Defined.

(** ** Hand-off candidates and the random draw *)

Section Candidates.

Variable ws : gmap string WorkerDefinition.
Variable own : option Z.

Lemma handOffable_spec (entry : string * WorkerDefinition) :
  handOffable own entry = true <->
  exists p, WD.handOffReceiverPort (snd entry) = Some p /\ own <> Some p.
Proof.
  unfold handOffable. destruct (WD.handOffReceiverPort (snd entry)) as [p|].
  - rewrite negb_true_iff, bool_decide_eq_false. split.
    + intros Hne. exists p. split; [reflexivity | exact Hne].
    + intros (p' & Heq & Hne). now inversion Heq; subst.
  - split; [discriminate | intros (p & Heq & _); discriminate].
Qed.

Lemma elem_of_handOffableWorkers (n : string) (d : WorkerDefinition) :
  (n, d) ∈ handOffableWorkers ws own <->
  ws !! n = Some d /\ exists p, WD.handOffReceiverPort d = Some p /\ own <> Some p.
Proof.
  unfold handOffableWorkers.
  rewrite list_elem_of_In, filter_In, <- list_elem_of_In, elem_of_map_to_list.
  now rewrite handOffable_spec.
Qed.

Lemma NoDup_handOffableWorkers : NoDup (handOffableWorkers ws own).
Proof.
  unfold handOffableWorkers. apply NoDup_ListNoDup, List.NoDup_filter.
  apply NoDup_ListNoDup, NoDup_map_to_list.
Qed.

End Candidates.

Section RandomDraw.

Variable random : Q.
Variable n : nat.
Hypothesis random_range : (0 <= random)%Q /\ (random < 1)%Q.
Hypothesis n_pos : (0 < n)%nat.

Local Abbreviation nQ := (count_Q n).

Lemma nQ_pos : (0 < nQ)%Q.
Proof.
  unfold count_Q. change 0%Q with (inject_Z 0). rewrite <- Zlt_Qlt. lia.
Qed.

Lemma chosen_index_range : 0 <= chosen_index random n < Z.of_nat n.
Proof.
  unfold chosen_index. fold (count_Q n). destruct random_range as [Hlo Hhi]. split.
  - change 0 with (Qfloor (inject_Z 0)). apply Qfloor_resp_le.
    apply Qmult_le_0_compat; [exact Hlo | apply Qlt_le_weak, nQ_pos].
  - rewrite Zlt_Qlt. eapply Qle_lt_trans; [apply Qfloor_le |].
    apply Qlt_le_trans with (1 * nQ)%Q.
    + apply Qmult_lt_compat_r; [apply nQ_pos | exact Hhi].
    + rewrite Qmult_1_l. apply Qle_refl.
Qed.

Lemma chosen_index_interval (i : Z) :
  chosen_index random n = i <->
  (inject_Z i / nQ <= random)%Q /\ (random < inject_Z (i + 1) / nQ)%Q.
Proof.
  unfold chosen_index. fold (count_Q n). pose proof nQ_pos as Hn. split.
  - intros <-. split.
    + apply Qle_shift_div_r; [exact Hn | apply Qfloor_le].
    + apply Qlt_shift_div_l; [exact Hn | apply Qlt_floor].
  - intros [Hlo Hhi].
    assert (Hlo' : (inject_Z i <= random * nQ)%Q).
    { apply Qle_trans with (inject_Z i / nQ * nQ)%Q.
      - apply Qle_lteq. right. field. intros Hz. rewrite Hz in Hn. discriminate.
      - apply Qmult_le_compat_r; [exact Hlo | apply Qlt_le_weak, Hn]. }
    assert (Hhi' : (random * nQ < inject_Z (i + 1))%Q).
    { apply Qlt_le_trans with (inject_Z (i + 1) / nQ * nQ)%Q.
      - apply Qmult_lt_compat_r; [exact Hn | exact Hhi].
      - apply Qle_lteq. right. field. intros Hz. rewrite Hz in Hn. discriminate. }
    apply Z.le_antisymm.
    + apply Z.lt_succ_r. unfold Z.succ. rewrite Zlt_Qlt.
      eapply Qle_lt_trans; [apply Qfloor_le | exact Hhi'].
    + rewrite <- (Qfloor_Z i) at 1. apply Qfloor_resp_le, Hlo'.
Qed.

Lemma array_get_chosen {A} (l : list A) :
  length l = n -> exists c, array_get l (chosen_index random n) = Some c.
Proof.
  intros Hlen. pose proof chosen_index_range as [Hlo Hhi].
  unfold array_get. destruct (Z.ltb_spec (chosen_index random n) 0); [lia |].
  apply lookup_lt_is_Some_2. rewrite Hlen. lia.
Qed.

End RandomDraw.

(** ** What handling a request can change *)

Lemma handled_refl w : handled w w.
Proof. constructor; auto. Qed.

Lemma handled_trans w1 w2 w3 : handled w1 w2 -> handled w2 w3 -> handled w1 w3.
Proof.
  intros [R1 S1 P1 H1 B1] [R2 S2 P2 H2 B2]. constructor.
  - congruence.
  - intros x. rewrite S2. apply S1.
  - intros x. rewrite P2. apply P1.
  - auto.
  - intros x Hx. destruct (B2 x Hx) as [Hb | [Hs Hs']].
    + destruct (B1 x Hb) as [Hb1 | [Hs1 Hs2]]; [auto |].
      right. split; [exact Hs1 | auto].
    + right. split; [| exact Hs'].
      destruct (server (procs w1 x)) eqn:E; [| reflexivity].
      rewrite (H1 x E) in Hs. discriminate.
Qed.

Lemma handled_owner_has_handle w w' :
  handled w w' -> owner_has_handle w -> owner_has_handle w'.
Proof.
  intros Hh Hinv q Hq. destruct (handled_bound _ _ Hh q Hq) as [Hb | [_ Hs]].
  - apply (handled_server _ _ Hh), Hinv, Hb.
  - exact Hs.
Qed.

Lemma upd_same f me p : upd f me p me = p.
Proof. unfold upd. now rewrite Nat.eqb_refl. Qed.

Lemma upd_other f me p x : x <> me -> upd f me p x = f x.
Proof. unfold upd. intros Hne. now destruct (Nat.eqb_spec x me). Qed.

Lemma set_workers_run q ws w : set_workers q ws w = (Ok tt, with_workers q ws w, []).
Proof. reflexivity. Qed.

Lemma handled_with_workers q ws w : handled w (with_workers q ws w).
Proof.
  constructor; cbn; auto;
    intros x; unfold upd; destruct (Nat.eqb_spec x q); subst; cbn; auto.
Qed.

Lemma startWorkerRegistry_run env q w :
  startWorkerRegistry env q w =
  match env_probe_error env with
  | Some err => (Throw err, w, [EProbe q])
  | None =>
      if bool_decide (registry_bound w = None) && negb (server (procs w q))
      then (Ok tt, with_registry q w, [EProbe q; EBind q])
      else (Ok tt, w, [EProbe q])
  end.
Proof.
  unfold startWorkerRegistry, isPortAvailable, bind, emit, get_proc, throw, ret.
  destruct (env_probe_error env); [reflexivity |].
  destruct (bool_decide (registry_bound w = None) && negb (server (procs w q)));
    reflexivity.
Qed.

Lemma startWorkerRegistry_handled env q w r w' t :
  startWorkerRegistry env q w = (r, w', t) -> handled w w'.
Proof.
  rewrite startWorkerRegistry_run. destruct (env_probe_error env).
  - intros [= <- <- <-]. apply handled_refl.
  - destruct (bool_decide (registry_bound w = None)) eqn:Hfree; cbn [andb].
    + destruct (server (procs w q)) eqn:Hs; cbn [negb].
      * intros [= <- <- <-]. apply handled_refl.
      * intros [= <- <- <-]. constructor; cbn; auto.
        -- intros x. unfold upd. now destruct (Nat.eqb_spec x q); subst.
        -- intros x. unfold upd. now destruct (Nat.eqb_spec x q); subst.
        -- intros x. unfold upd. now destruct (Nat.eqb_spec x q); subst.
        -- intros x [= <-]. right. rewrite upd_same. auto.
    + intros [= <- <- <-]. apply handled_refl.
Qed.

(** The registry's app always answers, prints nothing, and changes at most
    the registry of its own process. *)
Lemma registry_app_effect q req w :
  exists resp w',
    registry_app q req w = (Ok resp, w', [])
    /\ (w' = w \/ exists ws, w' = with_workers q ws w).
Proof.
  unfold registry_app.
  destruct (req_method req); destruct (url_path (req_url req)) as [|s [|s' [|s'' l]]];
    try (eexists _, _; split; [reflexivity | left; reflexivity]);
    repeat match goal with
           | |- context [match ?s with EmptyString => _ | String _ _ => _ end] =>
               destruct s
           | |- context [match ?a with Ascii.Ascii _ _ _ _ _ _ _ _ => _ end] => destruct a
           | |- context [if ?b then _ else _] => destruct b
           end;
    try (eexists _, _; split; [reflexivity | left; reflexivity]).
  all: unfold bind, get_proc, ret; try rewrite !set_workers_run;
    try (destruct (jsonBodyParser req); try rewrite !set_workers_run);
    cbn; eexists _, _; split; try reflexivity;
    first [left; reflexivity | right; eexists; reflexivity].
Qed.

Lemma registry_app_handled q req w r w' t :
  registry_app q req w = (r, w', t) -> handled w w'.
Proof.
  destruct (registry_app_effect q req w) as (resp & w1 & -> & Hw1).
  intros [= <- <- <-]. destruct Hw1 as [-> | [ws ->]].
  - apply handled_refl.
  - apply handled_with_workers.
Qed.

Lemma handOffReceiverApp_handled env q req w r w' t :
  handOffReceiverApp env q req w = (r, w', t) -> handled w w'.
Proof.
  unfold handOffReceiverApp.
  destruct (req_method req); destruct (url_path (req_url req));
    try (intros [= <- <- <-]; apply handled_refl).
  unfold try_catch, bind, throw, ret.
  assert (Hstart : forall w1, handled w w1 ->
            match startWorkerRegistry env q w1 with
            | (Ok _, w2, t2) => (Ok (mkResponse 200 RNull), w2, [] ++ t2 ++ [])
            | (Throw _, w2, t2) => (Throw headers_timeout, w2, ([] ++ t2) ++ [])
            end = (r, w', t) -> handled w w').
  { intros w1 Hw1. destruct (startWorkerRegistry env q w1) as [[r1 w2] t1] eqn:Hstart.
    apply startWorkerRegistry_handled in Hstart.
    destruct r1; intros [= <- <- <-]; eapply handled_trans; eauto. }
  destruct (jsonBodyParser req).
  - intros Hrun. eapply (Hstart w); [apply handled_refl |].
    destruct (startWorkerRegistry env q w) as [[[] ?] ?]; exact Hrun.
  - rewrite set_workers_run. intros Hrun.
    eapply (Hstart (with_workers q r0 w)); [apply handled_with_workers |].
    destruct (startWorkerRegistry env q (with_workers q r0 w)) as [[[] ?] ?]; exact Hrun.
Qed.

Lemma deliver_handled env req w r w' t :
  deliver env req w = (r, w', t) -> handled w w'.
Proof.
  unfold deliver. destruct (Z.eqb _ _).
  - destruct (registry_bound w).
    + apply registry_app_handled.
    + intros [= <- <- <-]. apply handled_refl.
  - destruct (receivers w !! _).
    + apply handOffReceiverApp_handled.
    + intros [= <- <- <-]. apply handled_refl.
Qed.

(** [fetch] first records the request, then fails, is answered by a foreign
    server, or is delivered. *)
Lemma fetch_run env me req w :
  fetch env me req w =
  match env_fault env req with
  | Some (Throws err) => (Throw err, w, [EFetch me req])
  | Some (Replies resp) => (Ok resp, w, [EFetch me req])
  | None => let '(r, w', t) := deliver env req w in (r, w', EFetch me req :: t)
  end.
Proof.
  unfold fetch, bind, emit, throw, ret.
  destruct (env_fault env req) as [[err | resp] |]; reflexivity.
Qed.

Lemma fetch_handled env me req w r w' t :
  fetch env me req w = (r, w', t) -> handled w w'.
Proof.
  rewrite fetch_run. destruct (env_fault env req) as [[err | resp] |].
  - intros [= <- <- <-]. apply handled_refl.
  - intros [= <- <- <-]. apply handled_refl.
  - destruct (deliver env req w) as [[r0 w0] t0] eqn:Hd.
    intros [= <- <- <-]. eapply deliver_handled, Hd.
Qed.

(** ** The shutdown sequence of lines 134-135 *)

Lemma stopWorkerRegistry_run me w :
  stopWorkerRegistry me w =
  if server (procs w me)
  then (Ok tt, registry_closed me w, [ETerminate me Registry])
  else (Ok tt, w, []).
Proof.
  unfold stopWorkerRegistry, bind, get_proc, emit, ret.
  destruct (server (procs w me)); reflexivity.
Qed.

Lemma stopHandOffReceiverServer_run me w :
  stopHandOffReceiverServer me w =
  match handOffReceiverServer (procs w me) with
  | Some address => (Ok tt, receiver_closed me address w, [ETerminate me Receiver])
  | None => (Ok tt, w, [])
  end.
Proof.
  unfold stopHandOffReceiverServer, bind, get_proc, emit, ret.
  destruct (handOffReceiverServer (procs w me)); reflexivity.
Qed.

Lemma handled_registry_closed me w : handled w (registry_closed me w).
Proof.
  constructor; cbn; auto. intros x. case_bool_decide; [discriminate | auto].
Qed.

Lemma shutdown_run me w :
  shutdown me w = (Ok tt, shutdown_world me w, shutdown_events me (procs w me)).
Proof.
  unfold shutdown, bind, shutdown_world, shutdown_events.
  rewrite stopWorkerRegistry_run.
  destruct (server (procs w me)) eqn:Hs; rewrite stopHandOffReceiverServer_run; cbn;
    destruct (handOffReceiverServer (procs w me)); reflexivity.
Qed.

(** After the shutdown sequence this process holds neither port 6284 nor the
    port of its latest receiver. *)
Lemma shutdown_world_registry me w :
  (registry_bound w = Some me -> server (procs w me) = true) ->
  registry_bound (shutdown_world me w) <> Some me.
Proof.
  intros Hwf. unfold shutdown_world.
  assert (Hclosed : registry_bound
                      (if server (procs w me) then registry_closed me w else w) <> Some me).
  { destruct (server (procs w me)) eqn:Hs.
    - cbn. case_bool_decide; [discriminate | assumption].
    - intros Hb. specialize (Hwf Hb). discriminate. }
  destruct (handOffReceiverServer (procs w me)); exact Hclosed.
Qed.

Lemma shutdown_world_receiver me w a :
  handOffReceiverServer (procs w me) = Some (Some a) ->
  receivers (shutdown_world me w) !! a <> Some me.
Proof.
  intros Ha. unfold shutdown_world. rewrite Ha.
  assert (Hr : forall w1 : World, receivers (receiver_closed me (Some a) w1) !! a <> Some me).
  { intros w1. cbn. case_bool_decide as Hb; [| exact Hb].
    rewrite lookup_delete_eq. discriminate. }
  apply Hr.
Qed.

(** ** The run of [handOff], branch by branch *)

Lemma handOff_run env me w :
  handOff env me w =
  let p := procs w me in
  if server p then
    let candidates := handOffableWorkers (workers p) (handOffReceiverPort p) in
    if Nat.ltb 0 (length candidates) then
      match array_get candidates (chosen_index (env_random env) (length candidates)) with
      | None => (Throw type_error, w, [])
      | Some (chosenHandOffName, chosenHandOff) =>
          let '(r, w1, tf) :=
            fetch env me (handOff_request chosenHandOff (workers p)) (registry_closed me w) in
          (Ok tt, shutdown_world me w1,
           [ELogger LDebug (handing_off_message chosenHandOffName) None;
            EConsoleLog "stopping registry"; ETerminate me Registry;
            EConsoleLog "passing off"]
           ++ tf ++ [handOff_outcome_event r] ++ shutdown_events me (procs w1 me))
      end
    else
      (Ok tt, shutdown_world me w,
       ELogger LDebug no_candidate_message None :: shutdown_events me p)
  else (Ok tt, shutdown_world me w, shutdown_events me p).
Proof.
  unfold handOff.
  change (stopWorkerRegistry me;;; stopHandOffReceiverServer me) with (shutdown me).
  cbv zeta. unfold bind at 1. unfold get_proc at 1.
  destruct (server (procs w me)) eqn:Hs.
  - destruct (Nat.ltb 0 _) eqn:Hlen.
    + destruct (array_get _ _) as [[chosenHandOffName chosenHandOff] |]; [| reflexivity].
      unfold bind, try_catch, logger_debug, console_log, console_error, emit, get_proc.
      rewrite stopWorkerRegistry_run, Hs. cbn [registry_closed procs].
      change (mkWorld (procs w)
                (if bool_decide (registry_bound w = Some me) then None else registry_bound w)
                (receivers w)) with (registry_closed me w).
      destruct (fetch env me _ (registry_closed me w)) as [[[resp | e] w1] tf];
        rewrite shutdown_run; cbn [handOff_outcome_event];
        rewrite <- ?app_assoc; reflexivity.
    + unfold bind, logger_debug, emit. rewrite shutdown_run. reflexivity.
  - unfold bind, ret. rewrite shutdown_run. reflexivity.
Qed.

Lemma handOff_returns env me w :
  (0 <= env_random env)%Q /\ (env_random env < 1)%Q ->
  exists w' t, handOff env me w = (Ok tt, w', t).
Proof.
  intros Hr. rewrite handOff_run. cbv zeta.
  destruct (server (procs w me)); [| eauto].
  destruct (Nat.ltb_spec 0 (length (handOffableWorkers (workers (procs w me))
                                      (handOffReceiverPort (procs w me))))) as [Hpos | _];
    [| eauto].
  destruct (array_get_chosen _ _ Hr Hpos _ eq_refl) as [[nm d] ->].
  destruct (fetch env me _ _) as [[r w1] tf]. eauto.
Qed.

(** C4: the hand-off candidates are exactly the registry entries whose
    handOffReceiverPort is defined and differs from this process's own receiver
    port, each once; for a random value r in [0,1) and n > 0 candidates the
    index floor(r*n) lies in the list, it equals i exactly when
    i/n <= r < (i+1)/n (an interval of length 1/n for every i), and the
    hand-off request of [handOff] goes to the entry at that index. *)
Theorem handOff_candidates_uniform (env : Env) (me : pid) (w : World) :
  let p := procs w me in
  let candidates := handOffableWorkers (workers p) (handOffReceiverPort p) in
  let n := length candidates in
  let r := env_random env in
  (0 <= r)%Q /\ (r < 1)%Q ->
  (0 < n)%nat ->
  (forall nm d,
      (nm, d) ∈ candidates <->
      workers p !! nm = Some d /\
      exists a, WD.handOffReceiverPort d = Some a /\ handOffReceiverPort p <> Some a)
  /\ NoDup candidates
  /\ 0 <= chosen_index r n < Z.of_nat n
  /\ (forall i : Z,
         chosen_index r n = i <->
         (inject_Z i / inject_Z (Z.of_nat n) <= r)%Q /\
         (r < inject_Z (i + 1) / inject_Z (Z.of_nat n))%Q)
  /\ exists nm d,
      candidates !! Z.to_nat (chosen_index r n) = Some (nm, d) /\
      (server p = true ->
       EFetch me (handOff_request d (workers p)) ∈ trace_of (handOff env me w)).
Proof.
  intros p candidates n r Hr Hn.
  split; [intros nm d; apply elem_of_handOffableWorkers |].
  split; [apply NoDup_handOffableWorkers |].
  pose proof (chosen_index_range r n Hr Hn) as Hrange.
  split; [exact Hrange |].
  split; [intros i; apply (chosen_index_interval r n Hn) |].
  destruct (array_get_chosen r n Hr Hn candidates eq_refl) as [[nm d] Hget].
  exists nm, d. split.
  - unfold array_get in Hget.
    destruct (Z.ltb_spec (chosen_index r n) 0); [lia | exact Hget].
  - intros Hs. rewrite handOff_run. cbv zeta. fold p. rewrite Hs.
    fold candidates. fold n. fold r.
    destruct (Nat.ltb_spec 0 n); [| lia]. rewrite Hget.
    rewrite fetch_run.
    destruct (env_fault env _) as [[err | resp] |];
      [| | destruct (deliver env _ _) as [[r0 w0] t0]];
      unfold trace_of; cbn [snd]; rewrite !elem_of_app; right; left;
      apply list_elem_of_here.
Qed.

Lemma handOff_candidates_uniform_witness :
  let p := procs world_two 0%nat in
  let candidates := handOffableWorkers (workers p) (handOffReceiverPort p) in
  exists nm d,
    candidates !! Z.to_nat (chosen_index (1 # 2) (length candidates)) = Some (nm, d)
    /\ EFetch 0%nat (handOff_request d (workers p))
         ∈ trace_of (handOff (quiet None) 0%nat world_two).
Proof.
  destruct (handOff_candidates_uniform (quiet None) 0%nat world_two)
    as (_ & _ & _ & _ & nm & d & Hget & Hfetch).
  - split; [unfold Qle; cbn; lia | reflexivity].
  - vm_compute. lia.
  - exists nm, d. split; [exact Hget | apply Hfetch; vm_compute; reflexivity].
Defined.

(** C5: every run of [handOff] returns without raising and ends with the
    shutdown sequence, after which this process holds neither port 6284 nor
    the port of its receiver: without a server handle, without candidates,
    and with a chosen candidate whether the POST succeeds or fails, in which
    case the error is printed by [console.error] and not raised. *)
Theorem handOff_always_shuts_down (env : Env) (me : pid) (w : World) :
  let p := procs w me in
  let candidates := handOffableWorkers (workers p) (handOffReceiverPort p) in
  (0 <= env_random env)%Q /\ (env_random env < 1)%Q ->
  (registry_bound w = Some me -> server p = true) ->
  exists w' t,
    handOff env me w = (Ok tt, w', t)
    /\ registry_bound w' <> Some me
    /\ (forall a, handOffReceiverServer p = Some (Some a) -> receivers w' !! a <> Some me)
    /\ (exists t0, t = t0 ++ shutdown_events me p)
    /\ (forall nm d e w1 tf,
           server p = true ->
           array_get candidates (chosen_index (env_random env) (length candidates))
           = Some (nm, d) ->
           fetch env me (handOff_request d (workers p)) (registry_closed me w)
           = (Throw e, w1, tf) ->
           EConsoleError e ∈ t).
Proof.
  intros p candidates Hr Hwf. rewrite handOff_run. cbv zeta. fold p. fold candidates.
  destruct (server p) eqn:Hs.
  - destruct (Nat.ltb_spec 0 (length candidates)) as [Hpos | Hnone].
    + destruct (array_get_chosen _ _ Hr Hpos candidates eq_refl) as [[nm d] Hget].
      rewrite Hget.
      destruct (fetch env me (handOff_request d (workers p)) (registry_closed me w))
        as [[r w1] tf] eqn:Hfetch.
      pose proof (fetch_handled _ _ _ _ _ _ _ Hfetch) as Hh.
      assert (Hs1 : server (procs w1 me) = true)
        by (apply (handled_server _ _ Hh); exact Hs).
      assert (Hrs : handOffReceiverServer (procs w1 me) = handOffReceiverServer p)
        by apply (handled_receiver_server _ _ Hh).
      eexists _, _. split; [reflexivity |].
      split; [apply shutdown_world_registry; intros _; exact Hs1 |].
      split; [intros a Ha; apply shutdown_world_receiver; rewrite Hrs; exact Ha |].
      split.
      * unfold shutdown_events. rewrite Hs1, Hrs, Hs.
        eexists. rewrite !app_assoc. reflexivity.
      * intros nm' d' e w1' tf' _ [= <- <-]. rewrite Hfetch. intros [= -> <- <-].
        rewrite !elem_of_app. right. right. left. apply list_elem_of_here.
    + assert (Hget : forall i, array_get candidates i = None).
      { intros i. unfold array_get. destruct (Z.ltb i 0); [reflexivity |].
        apply lookup_ge_None_2. lia. }
      eexists _, _. split; [reflexivity |].
      split; [apply shutdown_world_registry; intros _; exact Hs |].
      split; [intros a Ha; apply shutdown_world_receiver; exact Ha |].
      split; [exists [ELogger LDebug no_candidate_message None]; reflexivity |].
      intros nm d e w1 tf _ Hsome. rewrite Hget in Hsome. discriminate.
  - eexists _, _. split; [reflexivity |].
    split; [apply shutdown_world_registry; intros Hb; specialize (Hwf Hb); discriminate |].
    split; [intros a Ha; apply shutdown_world_receiver; exact Ha |].
    split; [exists []; reflexivity |].
    intros nm d e w1 tf Hfalse. discriminate.
Qed.

Lemma handOff_always_shuts_down_witness :
  exists w' t,
    handOff (quiet None) 0%nat world_two = (Ok tt, w', t)
    /\ registry_bound w' <> Some 0%nat
    /\ receivers w' !! 5000 <> Some 0%nat.
Proof.
  destruct (handOff_always_shuts_down (quiet None) 0%nat world_two)
    as (w' & t & Hrun & Hbound & Hreceiver & _).
  - split; [unfold Qle; cbn; lia | reflexivity].
  - intros _. vm_compute. reflexivity.
  - exists w', t. split; [exact Hrun |]. split; [exact Hbound |].
    apply Hreceiver. vm_compute. reflexivity.
Defined.

(** ** Requests to the well-known port *)

Lemma deliver_registry env req w :
  url_port (req_url req) = DEV_REGISTRY_PORT ->
  deliver env req w =
  match registry_bound w with
  | Some q => registry_app q req w
  | None => (Throw connection_refused, w, [])
  end.
Proof. intros Hport. unfold deliver. rewrite Hport. reflexivity. Qed.

(** A request to port 6284 that fails changed nothing. *)
Lemma fetch_registry_throw env me req w e w1 t1 :
  url_port (req_url req) = DEV_REGISTRY_PORT ->
  fetch env me req w = (Throw e, w1, t1) ->
  w1 = w /\ t1 = [EFetch me req].
Proof.
  intros Hport. rewrite fetch_run.
  destruct (env_fault env req) as [[err | resp] |].
  - intros [= _ <- <-]. auto.
  - discriminate.
  - rewrite (deliver_registry _ _ _ Hport). destruct (registry_bound w) as [q |].
    + destruct (registry_app_effect q req w) as (resp & w' & -> & _). discriminate.
    + intros [= _ <- <-]. auto.
Qed.

Lemma is_absence_codes (m : string) :
  is_absence (mkError m (Some "ECONNREFUSED")) = true
  /\ is_absence (mkError m (Some "ECONNRESET")) = true
  /\ is_absence (mkError m None) = false.
Proof. repeat split. Qed.

Lemma unregisterWorker_run env me name w :
  unregisterWorker env me name w =
  match fetch env me (unregister_request name) w with
  | (Ok _, w1, t1) =>
      match handOff env me w1 with
      | (Ok _, w2, t2) => (Ok tt, w2, t1 ++ t2)
      | (Throw e, w2, t2) =>
          (if is_absence e then Ok tt else Throw e, w2, (t1 ++ t2) ++ [])
      end
  | (Throw e, w1, t1) => (if is_absence e then Ok tt else Throw e, w1, t1 ++ [])
  end.
Proof.
  unfold unregisterWorker, try_catch, bind.
  destruct (fetch env me (unregister_request name) w) as [[[resp | e] w1] t1].
  - destruct (handOff env me w1) as [[[[] | e] w2] t2]; [reflexivity |].
    destruct (is_absence e); reflexivity.
  - destruct (is_absence e); reflexivity.
Qed.

(** C1, as the code has it: when the DELETE succeeds, [handOff] runs before
    the call returns and the call does not raise; when the DELETE fails with
    connection refused or reset, the call returns without raising, nothing
    was changed and [handOff] did not run; any other error of the DELETE is
    raised to the caller. *)
Theorem unregisterWorker_hands_off_after_delete (env : Env) (me : pid) (name : string)
    (w : World) :
  (0 <= env_random env)%Q /\ (env_random env < 1)%Q ->
  match fetch env me (unregister_request name) w with
  | (Ok _, w1, t1) =>
      exists w2 t2,
        handOff env me w1 = (Ok tt, w2, t2)
        /\ unregisterWorker env me name w = (Ok tt, w2, t1 ++ t2)
  | (Throw e, w1, t1) =>
      unregisterWorker env me name w
      = (if is_absence e then Ok tt else Throw e, w, [EFetch me (unregister_request name)])
  end.
Proof.
  intros Hr. rewrite unregisterWorker_run.
  destruct (fetch env me (unregister_request name) w) as [[[resp | e] w1] t1] eqn:Hfetch.
  - destruct (handOff_returns env me w1 Hr) as (w2 & t2 & Hrun).
    exists w2, t2. rewrite Hrun. auto.
  - apply fetch_registry_throw in Hfetch as [-> ->]; [| reflexivity].
    reflexivity.
Qed.

Lemma unregisterWorker_hands_off_after_delete_witness :
  exists w2 t2,
    handOff (quiet None) 0%nat
      (world_of (fetch (quiet None) 0%nat (unregister_request "a") world_two))
    = (Ok tt, w2, t2)
    /\ unregisterWorker (quiet None) 0%nat "a" world_two
       = (Ok tt, w2, EFetch 0%nat (unregister_request "a") :: t2).
Proof.
  assert (Hr : (0 <= env_random (quiet None))%Q /\ (env_random (quiet None) < 1)%Q)
    by (split; [unfold Qle; cbn; lia | reflexivity]).
  pose proof (unregisterWorker_hands_off_after_delete (quiet None) 0%nat "a" world_two Hr)
    as Hclaim.
  destruct (fetch (quiet None) 0%nat (unregister_request "a") world_two)
    as [[[resp | e] w1] t1] eqn:Hfetch.
  - assert (Ht1 : t1 = [EFetch 0%nat (unregister_request "a")]).
    { apply (f_equal snd) in Hfetch. cbn [snd] in Hfetch. rewrite <- Hfetch.
      vm_compute. reflexivity. }
    subst t1. exact Hclaim.
  - exfalso. apply (f_equal (fun run => result_of run)) in Hfetch.
    vm_compute in Hfetch. discriminate.
Defined.

(** C1 as stated fails: with no registry on port 6284 the DELETE is refused,
    the call returns without raising and changes nothing, so the receiver of
    this process still listens on port 5000; [handOff] would have closed it. *)
Lemma unregisterWorker_refused_skips_handOff :
  result_of (fetch (quiet None) 0%nat (unregister_request "a") world_no_registry)
  = Throw connection_refused
  /\ unregisterWorker (quiet None) 0%nat "a" world_no_registry
     = (Ok tt, world_no_registry, [EFetch 0%nat (unregister_request "a")])
  /\ receivers world_no_registry !! 5000 = Some 0%nat
  /\ receivers (world_of (handOff (quiet None) 0%nat world_no_registry)) !! 5000 = None
  /\ trace_of (handOff (quiet None) 0%nat world_no_registry) = [ETerminate 0%nat Receiver].
Proof.
  split; [vm_compute; reflexivity |].
  split.
  - rewrite unregisterWorker_run.
    destruct (fetch (quiet None) 0%nat (unregister_request "a") world_no_registry)
      as [[[resp | e] w1] t1] eqn:Hfetch.
    + apply (f_equal (fun run => result_of run)) in Hfetch.
      vm_compute in Hfetch. discriminate.
    + pose proof Hfetch as Hres. apply (f_equal (fun run => result_of run)) in Hres.
      apply fetch_registry_throw in Hfetch as [-> ->]; [| reflexivity].
      vm_compute in Hres. injection Hres as <-. reflexivity.
  - repeat split; vm_compute; reflexivity.
Qed.

(** ** Reading the registry *)

Lemma getRegisteredWorkers_run env me w :
  getRegisteredWorkers env me w =
  match fetch env me workers_request w with
  | (Ok resp, w1, t1) =>
      match resp_body resp with
      | RRegistry reg => (Ok (Some reg), w1, t1)
      | RNull => (Ok None, w1, t1)
      | RText _ => (Throw (mkError "Unexpected token in JSON" None), w1, t1)
      end
  | (Throw e, w1, t1) => (if is_absence e then Ok None else Throw e, w1, t1)
  end.
Proof.
  unfold getRegisteredWorkers, try_catch, bind, response_json, ret, throw.
  destruct (fetch env me workers_request w) as [[[resp | e] w1] t1].
  - destruct (resp_body resp); cbn; rewrite ?app_nil_r; reflexivity.
  - destruct (is_absence e); cbn; rewrite ?app_nil_r; reflexivity.
Qed.

(** GET /workers changes nothing. *)
Lemma fetch_workers_request_world env me w :
  world_of (fetch env me workers_request w) = w.
Proof.
  rewrite fetch_run. destruct (env_fault env workers_request) as [[err | resp] |];
    try reflexivity.
  rewrite deliver_registry by reflexivity.
  destruct (registry_bound w); reflexivity.
Qed.

Lemma getRegisteredWorkers_world env me w :
  world_of (getRegisteredWorkers env me w) = w.
Proof.
  rewrite getRegisteredWorkers_run.
  pose proof (fetch_workers_request_world env me w) as Hw.
  destruct (fetch env me workers_request w) as [[[resp | e] w1] t1];
    unfold world_of in *; cbn in Hw; subst w1.
  - destruct (resp_body resp); reflexivity.
  - reflexivity.
Qed.

Lemma getRegisteredWorkers_reachable env me w q :
  env_fault env workers_request = None ->
  registry_bound w = Some q ->
  getRegisteredWorkers env me w
  = (Ok (Some (workers (procs w q))), w, [EFetch me workers_request]).
Proof.
  intros Hnet Hq. rewrite getRegisteredWorkers_run, fetch_run, Hnet.
  rewrite deliver_registry by reflexivity. rewrite Hq. reflexivity.
Qed.

Lemma getRegisteredWorkers_unreachable env me w :
  env_fault env workers_request = None ->
  registry_bound w = None ->
  getRegisteredWorkers env me w = (Ok None, w, [EFetch me workers_request]).
Proof.
  intros Hnet Hq. rewrite getRegisteredWorkers_run, fetch_run, Hnet.
  rewrite deliver_registry by reflexivity. rewrite Hq. reflexivity.
Qed.

(** C6: [getRegisteredWorkers] returns the registry the GET answers with;
    when the GET fails with connection refused or reset it returns undefined
    without raising; any other error, and a response that is not JSON, is
    raised to the caller.  With nobody on port 6284 the GET is refused. *)
Theorem getRegisteredWorkers_outcomes (env : Env) (me : pid) (w : World) :
  match fetch env me workers_request w with
  | (Ok resp, w1, t1) =>
      match resp_body resp with
      | RRegistry reg => getRegisteredWorkers env me w = (Ok (Some reg), w1, t1)
      | RNull => getRegisteredWorkers env me w = (Ok None, w1, t1)
      | RText _ =>
          exists e, getRegisteredWorkers env me w = (Throw e, w1, t1)
                    /\ is_absence e = false
      end
  | (Throw e, w1, t1) =>
      getRegisteredWorkers env me w = (if is_absence e then Ok None else Throw e, w1, t1)
  end
  /\ (forall m : string,
         is_absence (mkError m (Some "ECONNREFUSED")) = true
         /\ is_absence (mkError m (Some "ECONNRESET")) = true
         /\ is_absence (mkError m None) = false)
  /\ (env_fault env workers_request = None ->
      match registry_bound w with
      | Some q =>
          result_of (getRegisteredWorkers env me w) = Ok (Some (workers (procs w q)))
      | None => result_of (getRegisteredWorkers env me w) = Ok None
      end).
Proof.
  split; [| split].
  - rewrite getRegisteredWorkers_run.
    destruct (fetch env me workers_request w) as [[[resp | e] w1] t1]; [| reflexivity].
    destruct (resp_body resp); try reflexivity.
    eexists. split; reflexivity.
  - apply is_absence_codes.
  - intros Hnet. destruct (registry_bound w) as [q |] eqn:Hq.
    + now rewrite (getRegisteredWorkers_reachable _ _ _ _ Hnet Hq).
    + now rewrite (getRegisteredWorkers_unreachable _ _ _ Hnet Hq).
Qed.

Lemma getRegisteredWorkers_outcomes_witness :
  result_of (getRegisteredWorkers (quiet None) 1%nat world_no_registry) = Ok None
  /\ exists reg,
      result_of (getRegisteredWorkers (quiet None) 1%nat world_two) = Ok (Some reg)
      /\ reg !! "b" = Some (spread_handOffReceiverPort sample_definition (Some 5001)).
Proof.
  split.
  - destruct (getRegisteredWorkers_outcomes (quiet None) 1%nat world_no_registry)
      as (_ & _ & Hworld).
    apply (Hworld eq_refl).
  - destruct (getRegisteredWorkers_outcomes (quiet None) 1%nat world_two)
      as (_ & _ & Hworld).
    eexists. split; [apply (Hworld eq_refl) |].
    vm_compute. reflexivity.
Defined.

(** ** Registering *)

Lemma fetch_registry_effect env me req w r w1 t :
  url_port (req_url req) = DEV_REGISTRY_PORT ->
  fetch env me req w = (r, w1, t) ->
  t = [EFetch me req] /\ (w1 = w \/ exists q ws, w1 = with_workers q ws w).
Proof.
  intros Hport. rewrite fetch_run.
  destruct (env_fault env req) as [[err | resp] |].
  - intros [= <- <- <-]. auto.
  - intros [= <- <- <-]. auto.
  - rewrite (deliver_registry _ _ _ Hport). destruct (registry_bound w) as [q |].
    + destruct (registry_app_effect q req w) as (resp & w' & -> & Hw').
      intros [= <- <- <-]. split; [reflexivity |].
      destruct Hw' as [-> | [ws ->]]; [left | right]; eauto.
    + intros [= <- <- <-]. auto.
Qed.

Lemma registerWorker_run env me name definition w :
  let p := procs w me in
  let own := port_after_listen env p in
  exists w0,
    procs w0 me = mkProc (server p) (workers p) (Some (env_listen env)) own
    /\ (forall x, x <> me -> procs w0 x = procs w x)
    /\ registry_bound w0 = registry_bound w
    /\ receivers w0 = match env_listen env with
                      | Some a => <[a := me]> (receivers w)
                      | None => receivers w
                      end
    /\ registerWorker env me name definition w =
       let '(r, w1, tf) := fetch env me (register_request name definition own) w0 in
       (match r with Ok resp => Ok (Some resp) | Throw _ => Ok None end,
        w1,
        listen_events env me ++ tf ++ register_outcome_events r).
Proof.
  intros p own. unfold registerWorker, listen_receiver, port_after_listen in *.
  unfold listen_events. unfold bind at 1.
  destruct (env_listen env) as [a |] eqn:Hlisten.
  - exists (mkWorld
              (upd (upd (procs w) me
                      (mkProc (server p) (workers p) (Some (Some a)) (handOffReceiverPort p)))
                 me (mkProc (server p) (workers p) (Some (Some a)) (Some a)))
              (registry_bound w) (<[a := me]> (receivers w))).
    split; [cbn; rewrite !upd_same; reflexivity |].
    split; [intros x Hx; cbn; rewrite !upd_other by exact Hx; reflexivity |].
    split; [reflexivity |]. split; [reflexivity |].
    unfold bind at 1. unfold set_handOffReceiverPort, bind, get_proc, set_proc.
    cbn [procs registry_bound receivers]. unfold try_catch, bind, get_proc.
    cbn [procs]. rewrite !upd_same. cbn [handOffReceiverPort server workers
                                          handOffReceiverServer].
    fold p. subst own.
    destruct (fetch env me _ _) as [[[resp | e] w1] tf];
      [cbn; rewrite !app_nil_r; reflexivity |].
    unfold register_outcome_events, register_failed_message, logger_error, logger_debug.
    destruct (is_absence e); cbn; rewrite ?app_nil_r; reflexivity.
  - exists (mkWorld
              (upd (procs w) me
                 (mkProc (server p) (workers p) (Some None) (handOffReceiverPort p)))
              (registry_bound w) (receivers w)).
    split; [cbn; rewrite !upd_same; reflexivity |].
    split; [intros x Hx; cbn; rewrite !upd_other by exact Hx; reflexivity |].
    split; [reflexivity |]. split; [reflexivity |].
    unfold bind at 1. unfold logger_error, emit.
    unfold try_catch, bind, get_proc.
    cbn [procs]. rewrite !upd_same. cbn [handOffReceiverPort].
    fold p. subst own.
    destruct (fetch env me _ _) as [[[resp | e] w1] tf];
      [cbn; rewrite !app_nil_r; reflexivity |].
    unfold register_outcome_events, register_failed_message, no_receiver_message,
      logger_error, logger_debug.
    destruct (is_absence e); cbn; rewrite ?app_nil_r; reflexivity.
Qed.

Lemma with_workers_fields q ws w x :
  server (procs (with_workers q ws w) x) = server (procs w x)
  /\ handOffReceiverServer (procs (with_workers q ws w) x) = handOffReceiverServer (procs w x)
  /\ handOffReceiverPort (procs (with_workers q ws w) x) = handOffReceiverPort (procs w x).
Proof.
  cbn. unfold upd. destruct (Nat.eqb_spec x q); subst; auto.
Qed.

(** A request to port 6284 leaves every server handle, every receiver and the
    holder of the port as they were. *)
Lemma fetch_registry_frame env me req w r w1 t :
  url_port (req_url req) = DEV_REGISTRY_PORT ->
  fetch env me req w = (r, w1, t) ->
  t = [EFetch me req]
  /\ registry_bound w1 = registry_bound w
  /\ receivers w1 = receivers w
  /\ forall x, server (procs w1 x) = server (procs w x)
               /\ handOffReceiverServer (procs w1 x) = handOffReceiverServer (procs w x)
               /\ handOffReceiverPort (procs w1 x) = handOffReceiverPort (procs w x).
Proof.
  intros Hport Hfetch.
  destruct (fetch_registry_effect _ _ _ _ _ _ _ Hport Hfetch) as [-> [-> | (q & ws & ->)]].
  - split; [reflexivity |]. split; [reflexivity |]. split; [reflexivity |].
    intros x. auto.
  - split; [reflexivity |]. split; [reflexivity |]. split; [reflexivity |].
    intros x. apply with_workers_fields.
Qed.

(** C2, as the code has it: [registerWorker] first starts this process's
    receiver and then POSTs to /workers/{name} on port 6284 the definition
    with this process's handOffReceiverPort merged in.  It does not attempt to
    start the registry: no probe, no bind, and the holder of port 6284 and
    every server handle are as before the call. *)
Theorem registerWorker_listens_then_posts (env : Env) (me : pid) (name : string)
    (definition : WorkerDefinition) (w : World) :
  let own := port_after_listen env (procs w me) in
  exists res w' answer,
    registerWorker env me name definition w
    = (res, w',
       listen_events env me
       ++ EFetch me (register_request name definition own)
       :: register_outcome_events answer)
    /\ req_url (register_request name definition own)
       = mkUrl "localhost" 6284 ["workers"; name]
    /\ req_body (register_request name definition own)
       = Some (JDefinition (spread_handOffReceiverPort definition own))
    /\ handOffReceiverServer (procs w' me) = Some (env_listen env)
    /\ handOffReceiverPort (procs w' me) = own
    /\ registry_bound w' = registry_bound w
    /\ (forall x, server (procs w' x) = server (procs w x)).
Proof.
  intros own.
  destruct (registerWorker_run env me name definition w)
    as (w0 & Hme & Hothers & Hbound & _ & Hrun).
  fold own in Hme, Hrun.
  destruct (fetch env me (register_request name definition own) w0)
    as [[r w1] tf] eqn:Hfetch.
  apply fetch_registry_frame in Hfetch as (-> & Hb1 & _ & Hfields); [| reflexivity].
  eexists _, w1, r. split; [exact Hrun |].
  split; [reflexivity |]. split; [reflexivity |].
  destruct (Hfields me) as (_ & Hrs & Hrp). rewrite Hrs, Hrp, Hme. cbn.
  split; [reflexivity |]. split; [reflexivity |].
  split; [congruence |].
  intros x. destruct (Hfields x) as (-> & _ & _).
  destruct (Nat.eq_dec x me) as [-> | Hne].
  - now rewrite Hme.
  - now rewrite Hothers.
Qed.

(** C2 as stated fails: port 6284 is free and a registry start by process 0
    would take it, yet after [registerWorker] nobody holds the port and the
    call made no probe: it opened the receiver, sent the POST and logged that
    the POST was refused. *)
Lemma registerWorker_does_not_start_registry :
  result_of (isPortAvailable (quiet None) 0%nat fresh_world) = Ok true
  /\ registry_bound (world_of (startWorkerRegistry (quiet None) 0%nat fresh_world))
     = Some 0%nat
  /\ registry_bound
       (world_of (registerWorker (quiet (Some 5000)) 0%nat "a" sample_definition fresh_world))
     = None
  /\ trace_of (registerWorker (quiet (Some 5000)) 0%nat "a" sample_definition fresh_world)
     = [EListen 0%nat (Some 5000);
        EFetch 0%nat (register_request "a" sample_definition (Some 5000));
        ELogger LDebug register_failed_message (Some connection_refused)].
Proof. repeat split; vm_compute; reflexivity. Qed.

(** C8, as the code has it: when [listen] yields no address, an error is
    logged and the POST is still sent; its body carries the module's
    handOffReceiverPort as the call found it, so no handOffReceiverPort when
    no earlier call of this process acquired one.  The call does not raise. *)
Theorem registerWorker_without_receiver (env : Env) (me : pid) (name : string)
    (definition : WorkerDefinition) (w : World) :
  env_listen env = None ->
  let own := handOffReceiverPort (procs w me) in
  exists res w' answer,
    registerWorker env me name definition w
    = (Ok res, w',
       [EListen me None;
        ELogger LError no_receiver_message None;
        EFetch me (register_request name definition own)]
       ++ register_outcome_events answer)
    /\ req_body (register_request name definition own)
       = Some (JDefinition (spread_handOffReceiverPort definition own))
    /\ WD.handOffReceiverPort (spread_handOffReceiverPort definition own) = own
    /\ handOffReceiverPort (procs w' me) = own.
Proof.
  intros Hlisten own.
  destruct (registerWorker_run env me name definition w)
    as (w0 & Hme & _ & _ & _ & Hrun).
  unfold port_after_listen, listen_events in *. rewrite Hlisten in *. fold own in Hme, Hrun.
  destruct (fetch env me (register_request name definition own) w0)
    as [[r w1] tf] eqn:Hfetch.
  apply fetch_registry_frame in Hfetch as (-> & _ & _ & Hfields); [| reflexivity].
  exists (match r with Ok resp => Some resp | Throw _ => None end), w1, r.
  split; [rewrite Hrun; destruct r; reflexivity |].
  split; [reflexivity |]. split; [reflexivity |].
  destruct (Hfields me) as (_ & _ & ->). now rewrite Hme.
Qed.

Lemma registerWorker_without_receiver_witness :
  exists res w',
    registerWorker (quiet None) 1%nat "b" sample_definition world_owner
    = (Ok res, w',
       [EListen 1%nat None;
        ELogger LError no_receiver_message None;
        EFetch 1%nat (register_request "b" sample_definition None)])
    /\ workers (procs w' 0%nat) !! "b" = Some sample_definition.
Proof.
  destruct (registerWorker_without_receiver (quiet None) 1%nat "b" sample_definition
              world_owner eq_refl) as (res & w' & answer & Hrun & _).
  exists res, w'. 
  assert (Hcompute :
            registerWorker (quiet None) 1%nat "b" sample_definition world_owner
            = (result_of (registerWorker (quiet None) 1%nat "b" sample_definition world_owner),
               world_of (registerWorker (quiet None) 1%nat "b" sample_definition world_owner),
               trace_of (registerWorker (quiet None) 1%nat "b" sample_definition world_owner)))
    by (destruct (registerWorker _ _ _ _ _) as [[? ?] ?]; reflexivity).
  rewrite Hrun in Hcompute at 1. injection Hcompute as Hres Hw Ht.
  split.
  - rewrite Hrun. f_equal. rewrite Ht. vm_compute. reflexivity.
  - rewrite Hw. vm_compute. reflexivity.
Defined.

(** C8 as stated fails: process 0 acquired port 5000 in an earlier call; in a
    later call [listen] yields no address, and the POST carries
    handOffReceiverPort 5000, which the registry stores. *)
Lemma registerWorker_keeps_earlier_port :
  handOffReceiverPort (procs world_owner 0%nat) = Some 5000
  /\ trace_of (registerWorker (quiet None) 0%nat "c" sample_definition world_owner)
     = [EListen 0%nat None;
        ELogger LError no_receiver_message None;
        EFetch 0%nat (register_request "c" sample_definition (Some 5000))]
  /\ req_body (register_request "c" sample_definition (Some 5000))
     = Some (JDefinition (spread_handOffReceiverPort sample_definition (Some 5000)))
  /\ (WD.handOffReceiverPort <$>
        workers (procs (world_of (registerWorker (quiet None) 0%nat "c" sample_definition
                                    world_owner)) 0%nat) !! "c")
     = Some (Some 5000).
Proof. repeat split; vm_compute; reflexivity. Qed.

(** ** Round trip *)

(** The registry's answer to the POST of [registerWorker]. *)
Lemma registry_app_register q name definition own w :
  registry_app q (register_request name definition own) w
  = (Ok (mkResponse 200 RNull),
     with_workers q
       (<[name := spread_handOffReceiverPort definition own]> (workers (procs w q))) w,
     []).
Proof. reflexivity. Qed.

(** C3: with a registry server on port 6284 (in this or in another process)
    and a network that delivers, [registerWorker name D] followed by
    [getRegisteredWorkers] returns a registry that maps [name] to [D] with
    handOffReceiverPort set to this process's receiver port, which is the port
    [listen] has just yielded when it yielded one. *)
Theorem register_then_get_round_trip (env env' : Env) (me q : pid) (name : string)
    (definition : WorkerDefinition) (w : World) :
  (forall req, env_fault env req = None) ->
  env_fault env' workers_request = None ->
  registry_bound w = Some q ->
  let w1 := world_of (registerWorker env me name definition w) in
  exists reg,
    result_of (getRegisteredWorkers env' me w1) = Ok (Some reg)
    /\ reg !! name
       = Some (spread_handOffReceiverPort definition (handOffReceiverPort (procs w1 me)))
    /\ (forall a, env_listen env = Some a ->
                  handOffReceiverPort (procs w1 me) = Some a
                  /\ receivers w1 !! a = Some me).
Proof.
  intros Hnet Hnet' Hq w1.
  destruct (registerWorker_run env me name definition w)
    as (w0 & Hme & _ & Hbound & Hreceivers & Hrun).
  cbv zeta in Hrun. rewrite fetch_run, Hnet in Hrun.
  rewrite deliver_registry in Hrun by reflexivity.
  rewrite Hbound, Hq, registry_app_register in Hrun.
  set (own := port_after_listen env (procs w me)) in *.
  set (stored := with_workers q _ w0) in Hrun.
  assert (Hw1 : w1 = stored) by (unfold w1; rewrite Hrun; reflexivity).
  assert (Hown : handOffReceiverPort (procs w1 me) = own).
  { rewrite Hw1. unfold stored.
    destruct (with_workers_fields q
                (<[name := spread_handOffReceiverPort definition own]> (workers (procs w0 q)))
                w0 me) as (_ & _ & ->).
    now rewrite Hme. }
  exists (workers (procs w1 q)). split; [| split].
  - rewrite (getRegisteredWorkers_reachable env' me w1 q Hnet'); [reflexivity |].
    rewrite Hw1. cbn. congruence.
  - rewrite Hown, Hw1. unfold stored. cbn. rewrite upd_same. cbn.
    apply lookup_insert_eq.
  - intros a Ha. split.
    + rewrite Hown. unfold own, port_after_listen. now rewrite Ha.
    + rewrite Hw1. unfold stored. cbn. rewrite Hreceivers, Ha.
      apply lookup_insert_eq.
Qed.

Lemma register_then_get_round_trip_witness :
  exists reg,
    result_of (getRegisteredWorkers (quiet None) 1%nat
                 (world_of (registerWorker (quiet (Some 5001)) 1%nat "b" sample_definition
                              world_owner)))
    = Ok (Some reg)
    /\ reg !! "b" = Some (spread_handOffReceiverPort sample_definition (Some 5001)).
Proof.
  destruct (register_then_get_round_trip (quiet (Some 5001)) (quiet None) 1%nat 0%nat "b"
              sample_definition world_owner) as (reg & Hget & Hlookup & Hport).
  - intros req. reflexivity.
  - reflexivity.
  - vm_compute. reflexivity.
  - exists reg. split; [exact Hget |].
    rewrite Hlookup. destruct (Hport 5001 eq_refl) as [-> _]. reflexivity.
Defined.

(** ** Filtering by bindings *)

Lemma bound_to_spec serviceNames durableObjectServices (entry : string * WorkerDefinition) :
  bound_to serviceNames durableObjectServices entry = true <->
  fst entry ∈ serviceNames \/ Some (fst entry) ∈ durableObjectServices.
Proof.
  unfold bound_to. rewrite orb_true_iff, !existsb_exists.
  rewrite !list_elem_of_In. split.
  - intros [(n & Hin & Heq) | ([n |] & Hin & Heq)].
    + apply String.eqb_eq in Heq. subst. now left.
    + apply String.eqb_eq in Heq. subst. now right.
    + discriminate.
  - intros [Hin | Hin].
    + left. exists (fst entry). split; [exact Hin | apply String.eqb_refl].
    + right. exists (Some (fst entry)). split; [exact Hin | apply String.eqb_refl].
Qed.

(** [Object.fromEntries(Object.entries(m).filter(f))] keeps the entries of
    [m] that satisfy [f]. *)
Lemma fromEntries_filter_lookup (f : string * WorkerDefinition -> bool)
    (m : gmap string WorkerDefinition) (k : string) (d : WorkerDefinition) :
  (list_to_map (List.filter f (map_to_list m)) : gmap string WorkerDefinition) !! k = Some d
  <-> m !! k = Some d /\ f (k, d) = true.
Proof.
  rewrite <- elem_of_list_to_map.
  - rewrite list_elem_of_In, filter_In, <- list_elem_of_In, elem_of_map_to_list.
    reflexivity.
  - assert (Hsub : forall l : list (string * WorkerDefinition),
               NoDup (l.*1) -> NoDup ((List.filter f l).*1)).
    { induction l as [| [k' d'] l IH]; [auto |].
      cbn. rewrite NoDup_cons. intros [Hnotin Hnodup].
      destruct (f (k', d')); [| auto].
      cbn. rewrite NoDup_cons. split; [| auto].
      intros Hin. apply Hnotin.
      apply list_elem_of_fmap in Hin as ([k'' d''] & -> & Hin).
      apply list_elem_of_In, filter_In in Hin as [Hin _].
      apply list_elem_of_fmap. exists (k'', d''). split; [reflexivity |].
      now apply list_elem_of_In. }
    apply Hsub, NoDup_fst_map_to_list.
Qed.

Lemma getBoundRegisteredWorkers_run env me services durableObjects w :
  getBoundRegisteredWorkers env me services durableObjects w =
  match getRegisteredWorkers env me w with
  | (Ok workerDefinitions, w1, t1) =>
      (Ok (list_to_map
             (List.filter
                (bound_to (List.map service (default [] services))
                   (List.map script_name
                      (bindings (default (mkDurableObjectsConfig []) durableObjects))))
                (map_to_list (default ∅ workerDefinitions)))),
       w1, t1)
  | (Throw e, w1, t1) => (Throw e, w1, t1)
  end.
Proof.
  unfold getBoundRegisteredWorkers, bind, ret.
  destruct (getRegisteredWorkers env me w) as [[[workerDefinitions | e] w1] t1];
    [rewrite app_nil_r |]; reflexivity.
Qed.

(** C7: [getBoundRegisteredWorkers] returns exactly the entries of the
    registry it fetched whose key is the service of a declared service binding
    or the script name of a declared durable-object binding; it returns the
    empty mapping when the registry is absent; an error of the fetch is
    raised unchanged; and the call changes nothing. *)
Theorem getBoundRegisteredWorkers_filters (env : Env) (me : pid)
    (services : option (list ServiceBinding))
    (durableObjects : option DurableObjectsConfig) (w : World) :
  let serviceNames := List.map service (default [] services) in
  let durableObjectServices :=
    List.map script_name (bindings (default (mkDurableObjectsConfig []) durableObjects)) in
  world_of (getBoundRegisteredWorkers env me services durableObjects w) = w
  /\ match result_of (getRegisteredWorkers env me w) with
     | Ok (Some reg) =>
         exists filteredWorkers : gmap string WorkerDefinition,
           result_of (getBoundRegisteredWorkers env me services durableObjects w)
           = Ok filteredWorkers
           /\ forall k d,
               filteredWorkers !! k = Some d <->
               reg !! k = Some d /\ (k ∈ serviceNames \/ Some k ∈ durableObjectServices)
     | Ok None =>
         result_of (getBoundRegisteredWorkers env me services durableObjects w) = Ok ∅
     | Throw e =>
         result_of (getBoundRegisteredWorkers env me services durableObjects w) = Throw e
     end.
Proof.
  intros serviceNames durableObjectServices.
  rewrite getBoundRegisteredWorkers_run.
  pose proof (getRegisteredWorkers_world env me w) as Hworld.
  destruct (getRegisteredWorkers env me w) as [[[[reg |] | e] w1] t1];
    unfold world_of, result_of in *; cbn in Hworld |- *; subst w1.
  - split; [reflexivity |]. eexists. split; [reflexivity |].
    intros k d. rewrite fromEntries_filter_lookup, bound_to_spec. reflexivity.
  - split; [reflexivity |]. rewrite map_to_list_empty. reflexivity.
  - split; reflexivity.
Qed.

Example getBoundRegisteredWorkers_svcA :
  result_of (getBoundRegisteredWorkers (quiet None) 1%nat
               (Some [mkServiceBinding "svcA"]) None world_three_services)
  = Ok (<["svcA" := sample_definition]> ∅).
Proof. vm_compute. reflexivity. Qed.

(** ** Receiving a hand-off *)

(** When the registry arrives as application/json, the receiver replaces its
    registry by the body, whatever it held, and then starts the registry
    server. *)
Lemma handOffReceiverApp_replaces env q host a ws w :
  handOffReceiverApp env q (json_handOff_request (mkUrl host a []) ws) w =
  match startWorkerRegistry env q (with_workers q ws w) with
  | (Ok _, w2, t2) => (Ok (mkResponse 200 RNull), w2, t2)
  | (Throw _, w2, t2) => (Throw headers_timeout, w2, t2)
  end.
Proof.
  unfold handOffReceiverApp, json_handOff_request. cbn.
  unfold try_catch, bind. rewrite set_workers_run.
  destruct (startWorkerRegistry env q (with_workers q ws w)) as [[[[] | e] w2] t2]; cbn;
    rewrite ?app_nil_r; reflexivity.
Qed.

Lemma handOffReceiverApp_claims_port env q host a ws w :
  env_probe_error env = None ->
  registry_bound w = None ->
  server (procs w q) = false ->
  let w' := world_of (handOffReceiverApp env q (json_handOff_request (mkUrl host a []) ws) w) in
  workers (procs w' q) = ws /\ registry_bound w' = Some q.
Proof.
  intros Hprobe Hfree Hserver. cbv zeta.
  rewrite handOffReceiverApp_replaces, startWorkerRegistry_run, Hprobe.
  assert (Hfree' : registry_bound (with_workers q ws w) = None) by exact Hfree.
  assert (Hserver' : server (procs (with_workers q ws w) q) = false).
  { destruct (with_workers_fields q ws w q) as (-> & _). exact Hserver. }
  rewrite Hfree', Hserver'. cbn. rewrite !upd_same. cbn. auto.
Qed.

(** The request [handOff] sends names no content type, so it travels as
    text/plain and [jsonBodyParser] hands the receiver the empty object. *)
Lemma handOff_request_not_parsed chosenHandOff ws :
  content_type (handOff_request chosenHandOff ws) = Some "text/plain;charset=UTF-8"
  /\ jsonBodyParser (handOff_request chosenHandOff ws) = JRegistry ∅.
Proof. split; reflexivity. Qed.

(** The request [registerWorker] sends names application/json and is parsed. *)
Lemma register_request_parsed name definition own :
  content_type (register_request name definition own) = Some "application/json"
  /\ jsonBodyParser (register_request name definition own)
     = JDefinition (spread_handOffReceiverPort definition own).
Proof. split; reflexivity. Qed.

(** C9 on the code: process 0 owns the registry {a, b}, where b is process
    1's worker with a live receiver on port 5001.  Process 0 unregisters a.
    [handOff] posts the registry {b} to port 5001; process 1 then holds port
    6284, but its registry is empty and not the registry that was posted. *)
Theorem handOff_delivers_empty_registry :
  let posted : gmap string WorkerDefinition :=
    <["b" := spread_handOffReceiverPort sample_definition (Some 5001)]> ∅ in
  let run := unregisterWorker (quiet None) 0%nat "a" world_two in
  result_of run = Ok tt
  /\ EFetch 0%nat
       (mkRequest (mkUrl "127.0.0.1" 5001 []) POST [] (Some (JRegistry posted)))
     ∈ trace_of run
  /\ registry_bound (world_of run) = Some 1%nat
  /\ workers (procs (world_of run) 1%nat) = ∅
  /\ posted !! "b" = Some (spread_handOffReceiverPort sample_definition (Some 5001)).
Proof.
  cbv zeta. split; [vm_compute; reflexivity |].
  split.
  - apply list_elem_of_In.
    assert (Htrace : trace_of (unregisterWorker (quiet None) 0%nat "a" world_two)
                     = [EFetch 0%nat (unregister_request "a");
                        ELogger LDebug (handing_off_message "b") None;
                        EConsoleLog "stopping registry"; ETerminate 0%nat Registry;
                        EConsoleLog "passing off";
                        EFetch 0%nat
                          (mkRequest (mkUrl "127.0.0.1" 5001 []) POST []
                             (Some (JRegistry
                                      (<["b" := spread_handOffReceiverPort sample_definition
                                                  (Some 5001)]> ∅))));
                        EProbe 1%nat; EBind 1%nat; EConsoleLog "done";
                        ETerminate 0%nat Registry; ETerminate 0%nat Receiver])
      by (vm_compute; reflexivity).
    rewrite Htrace. cbn. auto 10.
  - repeat split; vm_compute; reflexivity.
Qed.

(** ** The owner of port 6284 has a server handle *)

Lemma owner_has_handle_fresh : owner_has_handle fresh_world.
Proof. intros q Hq. discriminate. Qed.

Lemma owner_has_handle_registry_closed me w :
  owner_has_handle w -> owner_has_handle (registry_closed me w).
Proof. intros Hinv. apply (handled_owner_has_handle w); [apply handled_registry_closed | exact Hinv]. Qed.

Lemma owner_has_handle_shutdown_world me w :
  owner_has_handle w -> owner_has_handle (shutdown_world me w).
Proof.
  intros Hinv q. unfold shutdown_world.
  assert (Hclosed : owner_has_handle (if server (procs w me) then registry_closed me w else w)).
  { destruct (server (procs w me)); [apply owner_has_handle_registry_closed |]; exact Hinv. }
  destruct (handOffReceiverServer (procs w me)); apply Hclosed.
Qed.

Lemma startWorkerRegistry_owner_has_handle env me w :
  owner_has_handle w -> owner_has_handle (world_of (startWorkerRegistry env me w)).
Proof.
  destruct (startWorkerRegistry env me w) as [[r w'] t] eqn:Hrun.
  intros Hinv. eapply handled_owner_has_handle; [| exact Hinv].
  eapply startWorkerRegistry_handled, Hrun.
Qed.

Lemma handOff_owner_has_handle env me w :
  owner_has_handle w -> owner_has_handle (world_of (handOff env me w)).
Proof.
  intros Hinv. rewrite handOff_run. cbv zeta.
  destruct (server (procs w me)); [| apply owner_has_handle_shutdown_world, Hinv].
  destruct (Nat.ltb 0 _); [| apply owner_has_handle_shutdown_world, Hinv].
  destruct (array_get _ _) as [[nm d] |]; [| exact Hinv].
  destruct (fetch env me _ _) as [[r w1] tf] eqn:Hfetch.
  apply owner_has_handle_shutdown_world.
  eapply handled_owner_has_handle; [eapply fetch_handled, Hfetch |].
  apply owner_has_handle_registry_closed, Hinv.
Qed.

Lemma unregisterWorker_owner_has_handle env me name w :
  owner_has_handle w -> owner_has_handle (world_of (unregisterWorker env me name w)).
Proof.
  intros Hinv. rewrite unregisterWorker_run.
  destruct (fetch env me (unregister_request name) w) as [[[resp | e] w1] t1] eqn:Hfetch.
  - assert (Hinv1 : owner_has_handle w1)
      by (eapply handled_owner_has_handle; [eapply fetch_handled, Hfetch | exact Hinv]).
    pose proof (handOff_owner_has_handle env me w1 Hinv1) as Hinv2.
    destruct (handOff env me w1) as [[[[] | e] w2] t2]; exact Hinv2.
  - eapply handled_owner_has_handle; [eapply fetch_handled, Hfetch | exact Hinv].
Qed.

Lemma registerWorker_owner_has_handle env me name definition w :
  owner_has_handle w ->
  owner_has_handle (world_of (registerWorker env me name definition w)).
Proof.
  intros Hinv.
  destruct (registerWorker_run env me name definition w)
    as (w0 & Hme & Hothers & Hbound & _ & Hrun).
  cbv zeta in Hrun.
  assert (Hinv0 : owner_has_handle w0).
  { intros q Hq. rewrite Hbound in Hq. specialize (Hinv q Hq).
    destruct (Nat.eq_dec q me) as [-> | Hne].
    - now rewrite Hme.
    - now rewrite Hothers. }
  destruct (fetch env me _ w0) as [[r w1] tf] eqn:Hfetch.
  rewrite Hrun. unfold world_of. cbn.
  eapply handled_owner_has_handle; [eapply fetch_handled, Hfetch | exact Hinv0].
Qed.

(** ** Paging through the issues *)

Lemma last_cons_default {A} (l : list A) (x d : A) :
  List.last (x :: l) d = List.last l x.
Proof.
  revert x d. induction l as [| y l IH]; intros x d; [reflexivity |].
  change (List.last (y :: l) d = List.last (y :: l) x).
  now rewrite !IH.
Qed.

Lemma removelast_snoc_last {A} (l : list A) (x : A) :
  List.removelast (x :: l) ++ [List.last l x] = x :: l.
Proof.
  revert x. induction l as [| y l IH]; intros x; [reflexivity |].
  change (x :: (List.removelast (y :: l) ++ [List.last (y :: l) x]) = x :: y :: l).
  rewrite last_cons_default. now rewrite IH.
Qed.

Section PaginationProperties.

Variable GitHubIssueNode Issue : Type.
Variable toFormattedIssue : GitHubIssueNode -> Issue.
Variable issueQuery : string.

Local Abbreviation Page := (GetIssues.Issues GitHubIssueNode).
Local Abbreviation run_pages :=
  (GetIssues.paginate GitHubIssueNode Issue toFormattedIssue issueQuery).
Local Abbreviation formatted :=
  (fun pages : list Page =>
     List.concat (List.map (fun p => List.map toFormattedIssue (GetIssues.nodes p)) pages)).
Local Abbreviation queries_for :=
  (fun (since : option string) (cursors : list (option string)) =>
     List.map (fun c => GetIssues.query issueQuery c since) cursors).

Lemma paginate_pages since (pages : list Page) :
  Forall (fun p => GetIssues.hasNextPage p = true) pages ->
  forall (tail : list (Result Page)) cursor allIssues,
    run_pages since (List.map Ok pages ++ tail) cursor allIssues =
    let '(res, queries) :=
      run_pages since tail
        (List.last (GetIssues.cursors_after GitHubIssueNode pages) cursor)
        (allIssues ++ formatted pages) in
    (res,
     queries_for since (List.removelast (cursor :: GetIssues.cursors_after GitHubIssueNode pages))
     ++ queries).
Proof.
  induction 1 as [| p pages Hp _ IH]; intros tail cursor allIssues.
  - cbn [List.map app List.concat GetIssues.cursors_after List.last List.removelast].
    rewrite app_nil_r.
    destruct (run_pages since tail cursor allIssues) as [res queries]. reflexivity.
  - cbn [List.map app GetIssues.paginate GetIssues.fetchIssuesWithComments].
    rewrite Hp, IH.
    change (GetIssues.cursors_after GitHubIssueNode (p :: pages))
      with (Some (GetIssues.endCursor p) :: GetIssues.cursors_after GitHubIssueNode pages).
    rewrite last_cons_default. cbn [List.concat List.map]. rewrite <- app_assoc.
    destruct (run_pages since tail _ _) as [res queries]. reflexivity.
Qed.

(** X15: the loop asks for one page after another, each query carrying the
    endCursor of the page before, gathers the formatted nodes in order and
    returns them at the first page that reports no next page; answers after
    that page are never asked for. *)
Theorem getIssuesWithComments_collects_pages since (pages : list Page) (final : Page)
    (later : list (Result Page)) :
  Forall (fun p => GetIssues.hasNextPage p = true) pages ->
  GetIssues.hasNextPage final = false ->
  GetIssues.getIssuesWithComments GitHubIssueNode Issue toFormattedIssue issueQuery since
    (List.map Ok pages ++ Ok final :: later)
  = (Some (Ok (formatted (pages ++ [final]))),
     queries_for since (None :: GetIssues.cursors_after GitHubIssueNode pages)).
Proof.
  intros Hpages Hfinal. unfold GetIssues.getIssuesWithComments.
  rewrite (paginate_pages since pages Hpages).
  cbn [GetIssues.paginate GetIssues.fetchIssuesWithComments]. rewrite Hfinal.
  rewrite List.map_app, List.concat_app. cbn [List.map List.concat app].
  rewrite !app_nil_r. f_equal.
  pose proof (removelast_snoc_last (GetIssues.cursors_after GitHubIssueNode pages)
                (@None string)) as Hcursors.
  apply (f_equal (List.map (fun c => GetIssues.query issueQuery c since))) in Hcursors.
  rewrite List.map_app in Hcursors. exact Hcursors.
Qed.

(** X16: an error of a request is raised out of the loop, and the issues of the
    pages fetched before it are not returned. *)
Theorem getIssuesWithComments_error_discards since (pages : list Page) (e : Error)
    (later : list (Result Page)) :
  Forall (fun p => GetIssues.hasNextPage p = true) pages ->
  GetIssues.getIssuesWithComments GitHubIssueNode Issue toFormattedIssue issueQuery since
    (List.map Ok pages ++ Throw e :: later)
  = (Some (Throw e),
     queries_for since (None :: GetIssues.cursors_after GitHubIssueNode pages)).
Proof.
  intros Hpages. unfold GetIssues.getIssuesWithComments.
  rewrite (paginate_pages since pages Hpages).
  cbn [GetIssues.paginate GetIssues.fetchIssuesWithComments]. f_equal.
  pose proof (removelast_snoc_last (GetIssues.cursors_after GitHubIssueNode pages)
                (@None string)) as Hcursors.
  apply (f_equal (List.map (fun c => GetIssues.query issueQuery c since))) in Hcursors.
  rewrite List.map_app in Hcursors. exact Hcursors.
Qed.

(** X17: as long as every page reports a next page the loop does not return: it
    has sent one more query than it has pages and waits for the answer. *)
Theorem getIssuesWithComments_keeps_asking since (pages : list Page) :
  Forall (fun p => GetIssues.hasNextPage p = true) pages ->
  GetIssues.getIssuesWithComments GitHubIssueNode Issue toFormattedIssue issueQuery since
    (List.map Ok pages)
  = (None, queries_for since (None :: GetIssues.cursors_after GitHubIssueNode pages)).
Proof.
  intros Hpages. unfold GetIssues.getIssuesWithComments.
  rewrite <- (app_nil_r (List.map Ok pages)).
  rewrite (paginate_pages since pages Hpages).
  cbn [GetIssues.paginate]. f_equal.
  pose proof (removelast_snoc_last (GetIssues.cursors_after GitHubIssueNode pages)
                (@None string)) as Hcursors.
  apply (f_equal (List.map (fun c => GetIssues.query issueQuery c since))) in Hcursors.
  rewrite List.map_app in Hcursors. exact Hcursors.
Qed.

(** X18: a page that reports a next page but an empty endCursor sends the loop
    back to the start: the next query is the first query again. *)
Theorem getIssuesWithComments_empty_cursor_restarts since (page : Page)
    (later : list (Result Page)) :
  GetIssues.hasNextPage page = true ->
  GetIssues.endCursor page = EmptyString ->
  exists rest,
    snd (GetIssues.getIssuesWithComments GitHubIssueNode Issue toFormattedIssue issueQuery
           since (Ok page :: later))
    = GetIssues.query issueQuery None since
      :: GetIssues.query issueQuery None since :: rest.
Proof.
  intros Hnext Hcursor. unfold GetIssues.getIssuesWithComments.
  cbn [GetIssues.paginate GetIssues.fetchIssuesWithComments]. rewrite Hnext, Hcursor.
  destruct later as [| [next | e] later]; cbn [GetIssues.paginate
                                                 GetIssues.fetchIssuesWithComments].
  - exists []. reflexivity.
  - destruct (GetIssues.hasNextPage next).
    + destruct (GetIssues.paginate _ _ _ _ _ _ _ _) as [res queries]. eexists. reflexivity.
    + exists []. reflexivity.
  - exists []. reflexivity.
Qed.

End PaginationProperties.

Lemma getIssuesWithComments_collects_pages_witness :
  GetIssues.getIssuesWithComments nat nat S "title" None
    [Ok (GetIssues.mkIssues [1; 2]%nat "c1" true);
     Ok (GetIssues.mkIssues [3]%nat "c2" false);
     Ok (GetIssues.mkIssues [9]%nat "c3" false)]
  = (Some (Ok [2; 3; 4]%nat),
     [GetIssues.query "title" None None; GetIssues.query "title" (Some "c1") None]).
Proof.
  apply (getIssuesWithComments_collects_pages nat nat S "title" None
           [GetIssues.mkIssues [1; 2]%nat "c1" true]
           (GetIssues.mkIssues [3]%nat "c2" false)
           [Ok (GetIssues.mkIssues [9]%nat "c3" false)]).
  - repeat constructor.
  - reflexivity.
Defined.

Lemma getIssuesWithComments_error_discards_witness :
  fst (GetIssues.getIssuesWithComments nat nat S "title" (Some "2024-01-01")
         [Ok (GetIssues.mkIssues [1; 2]%nat "c1" true);
          Throw (mkError "Bad credentials" None)])
  = Some (Throw (mkError "Bad credentials" None)).
Proof.
  refine (f_equal fst
            (getIssuesWithComments_error_discards nat nat S "title" (Some "2024-01-01")
               [GetIssues.mkIssues [1; 2]%nat "c1" true] (mkError "Bad credentials" None) []
               _)).
  repeat constructor.
Defined.

Lemma getIssuesWithComments_keeps_asking_witness :
  fst (GetIssues.getIssuesWithComments nat nat S "title" None
         [Ok (GetIssues.mkIssues [1]%nat "c1" true);
          Ok (GetIssues.mkIssues [2]%nat "c2" true)])
  = None.
Proof.
  refine (f_equal fst
            (getIssuesWithComments_keeps_asking nat nat S "title" None
               [GetIssues.mkIssues [1]%nat "c1" true; GetIssues.mkIssues [2]%nat "c2" true]
               _)).
  repeat constructor.
Defined.

Lemma getIssuesWithComments_empty_cursor_restarts_witness :
  exists rest,
    snd (GetIssues.getIssuesWithComments nat nat S "title" None
           [Ok (GetIssues.mkIssues [1]%nat "" true)])
    = GetIssues.query "title" None None :: GetIssues.query "title" None None :: rest.
Proof.
  apply (getIssuesWithComments_empty_cursor_restarts nat nat S "title" None
           (GetIssues.mkIssues [1]%nat "" true) []); reflexivity.
Defined.

(** ** The timestamp store, composed *)

(** X19: of two timestamps stored one after the other the later one is read
    back; storing touches no other key of the storage; and what
    [setLastUpdatedTimestamp] prints is the value it has just stored. *)
Theorem IssuesStore_last_write_wins (storage : gmap string string) (t1 t2 : string) :
  t2 <> "" ->
  let stored := fst (IssuesStore.setLastUpdatedTimestamp t2
                       (fst (IssuesStore.setLastUpdatedTimestamp t1 storage))) in
  fst (IssuesStore.getLastUpdatedTimestamp stored) = t2
  /\ (forall k, k <> "lastUpdatedTimestamp" -> stored !! k = storage !! k)
  /\ snd (IssuesStore.setLastUpdatedTimestamp t2 storage) = [Some t2].
Proof.
  intros Ht2. cbv zeta.
  unfold IssuesStore.getLastUpdatedTimestamp, IssuesStore.setLastUpdatedTimestamp.
  cbn [fst snd]. rewrite !lookup_insert_eq. split; [| split].
  - unfold IssuesStore.truthy. destruct (String.eqb_spec t2 ""); [contradiction | reflexivity].
  - intros k Hk. now rewrite !lookup_insert_ne by congruence.
  - reflexivity.
Qed.

Lemma IssuesStore_last_write_wins_witness :
  fst (IssuesStore.getLastUpdatedTimestamp
         (fst (IssuesStore.setLastUpdatedTimestamp "2024-06-01T00:00:00Z"
                 (fst (IssuesStore.setLastUpdatedTimestamp "2024-05-01T00:00:00Z" ∅)))))
  = "2024-06-01T00:00:00Z".
Proof.
  apply (IssuesStore_last_write_wins ∅ "2024-05-01T00:00:00Z" "2024-06-01T00:00:00Z").
  discriminate.
Defined.

(** ** Starting and stopping the registry *)

(** X1: [startWorkerRegistry] never takes port 6284 from a process that holds
    it, so a second start changes nothing; it takes a free port when this
    module has no server handle yet, and then serves the module's registry as
    it is; an unexpected error of the probe is raised. *)
Theorem startWorkerRegistry_ownership (env : Env) (me : pid) (w : World) :
  (forall q, registry_bound w = Some q ->
             world_of (startWorkerRegistry env me w) = w)
  /\ (env_probe_error env = None ->
      registry_bound w = None ->
      server (procs w me) = false ->
      let w' := world_of (startWorkerRegistry env me w) in
      registry_bound w' = Some me
      /\ server (procs w' me) = true
      /\ workers (procs w' me) = workers (procs w me)
      /\ forall x, x <> me -> procs w' x = procs w x)
  /\ (forall e, env_probe_error env = Some e ->
                startWorkerRegistry env me w = (Throw e, w, [EProbe me])).
Proof.
  rewrite startWorkerRegistry_run. split; [| split].
  - intros q Hq. rewrite Hq. destruct (env_probe_error env); reflexivity.
  - intros -> Hfree Hserver. rewrite Hfree, Hserver. cbn.
    rewrite !upd_same. cbn. repeat split.
    intros x Hx. now rewrite upd_other.
  - intros e ->. reflexivity.
Qed.

(** X2: stopping the registry frees port 6284 but leaves the module's server
    handle set, so a later [startWorkerRegistry] of the same process never
    takes the port again, although it is free. *)
Theorem stopped_registry_never_restarts (env : Env) (me : pid) (w : World) :
  registry_bound w = Some me ->
  server (procs w me) = true ->
  let w1 := world_of (stopWorkerRegistry me w) in
  registry_bound w1 = None
  /\ world_of (startWorkerRegistry env me w1) = w1.
Proof.
  intros Hbound Hserver. cbv zeta.
  rewrite stopWorkerRegistry_run, Hserver. unfold world_of. cbn [fst snd].
  split.
  - cbn. rewrite bool_decide_eq_true_2 by exact Hbound. reflexivity.
  - rewrite startWorkerRegistry_run.
    destruct (env_probe_error env); [reflexivity |].
    cbn [registry_closed procs]. rewrite Hserver, andb_false_r. reflexivity.
Qed.

Lemma stopped_registry_never_restarts_witness :
  registry_bound (world_of (stopWorkerRegistry 0%nat world_owner)) = None
  /\ registry_bound
       (world_of (startWorkerRegistry (quiet None) 0%nat
                    (world_of (stopWorkerRegistry 0%nat world_owner))))
     = None.
Proof.
  destruct (stopped_registry_never_restarts (quiet None) 0%nat world_owner)
    as [Hfree Hsame].
  - vm_compute. reflexivity.
  - vm_compute. reflexivity.
  - split; [exact Hfree |]. rewrite Hsame. exact Hfree.
Defined.

(** ** The routes of the registry, reached through [fetch] *)

Lemma fetch_delivered env me req w q :
  env_fault env req = None ->
  url_port (req_url req) = DEV_REGISTRY_PORT ->
  registry_bound w = Some q ->
  fetch env me req w =
  let '(r, w', t) := registry_app q req w in (r, w', EFetch me req :: t).
Proof.
  intros Hnet Hport Hq. rewrite fetch_run, Hnet, (deliver_registry _ _ _ Hport), Hq.
  reflexivity.
Qed.

Lemma with_workers_lookup q ws w :
  workers (procs (with_workers q ws w) q) = ws.
Proof. cbn. now rewrite upd_same. Qed.

(** X3: DELETE /workers empties the registry: it answers null, and a
    [getRegisteredWorkers] after it returns the empty mapping. *)
Theorem clear_then_get_empty (env env' : Env) (me x q : pid) (w : World) :
  registry_bound w = Some q ->
  env_fault env clear_request = None ->
  env_fault env' workers_request = None ->
  let run := fetch env me clear_request w in
  result_of run = Ok (mkResponse 200 RNull)
  /\ result_of (getRegisteredWorkers env' x (world_of run)) = Ok (Some ∅).
Proof.
  intros Hq Hnet Hnet'. cbv zeta.
  rewrite (fetch_delivered env me clear_request w q Hnet eq_refl Hq).
  change (registry_app q clear_request w)
    with (Ok (mkResponse 200 RNull), with_workers q ∅ w, @nil Event).
  unfold result_of, world_of. cbn [fst snd]. split; [reflexivity |].
  rewrite (getRegisteredWorkers_reachable env' x (with_workers q ∅ w) q Hnet' Hq).
  cbn [fst]. now rewrite with_workers_lookup.
Qed.

Lemma clear_then_get_empty_witness :
  result_of (getRegisteredWorkers (quiet None) 1%nat
               (world_of (fetch (quiet None) 1%nat clear_request world_two)))
  = Ok (Some ∅).
Proof.
  apply (clear_then_get_empty (quiet None) (quiet None) 1%nat 1%nat 0%nat world_two);
    vm_compute; reflexivity.
Defined.

(** Where a delivered [registerWorker] leaves the registry of the owner. *)
Lemma registerWorker_stores env me q name definition w :
  (forall req, env_fault env req = None) ->
  registry_bound w = Some q ->
  let w1 := world_of (registerWorker env me name definition w) in
  registry_bound w1 = Some q
  /\ handOffReceiverPort (procs w1 me) = port_after_listen env (procs w me)
  /\ workers (procs w1 q)
     = <[name := spread_handOffReceiverPort definition (port_after_listen env (procs w me))]>
         (workers (procs w q)).
Proof.
  intros Hnet Hq w1.
  destruct (registerWorker_run env me name definition w)
    as (w0 & Hme & Hothers & Hbound & _ & Hrun).
  cbv zeta in Hrun.
  assert (Hq0 : registry_bound w0 = Some q) by congruence.
  rewrite (fetch_delivered env me
             (register_request name definition (port_after_listen env (procs w me)))
             w0 q (Hnet _) eq_refl Hq0) in Hrun.
  rewrite registry_app_register in Hrun.
  assert (Hws0 : workers (procs w0 q) = workers (procs w q)).
  { destruct (Nat.eq_dec q me) as [-> | Hne]; [now rewrite Hme | now rewrite Hothers]. }
  unfold w1. rewrite Hrun. unfold world_of. cbn [fst snd].
  split; [exact Hq0 |]. split.
  - destruct (with_workers_fields q
                (<[name := spread_handOffReceiverPort definition
                             (port_after_listen env (procs w me))]> (workers (procs w0 q)))
                w0 me) as (_ & _ & ->).
    now rewrite Hme.
  - now rewrite with_workers_lookup, Hws0.
Qed.

(** X4: of two registrations under one name the later one stays, whichever
    processes made them, and no other entry of the registry is touched. *)
Theorem registerWorker_last_write_wins (env1 env2 : Env) (me1 me2 q : pid) (name : string)
    (definition1 definition2 : WorkerDefinition) (w : World) :
  (forall req, env_fault env1 req = None) ->
  (forall req, env_fault env2 req = None) ->
  registry_bound w = Some q ->
  let w1 := world_of (registerWorker env1 me1 name definition1 w) in
  let w2 := world_of (registerWorker env2 me2 name definition2 w1) in
  workers (procs w2 q)
  = <[name := spread_handOffReceiverPort definition2 (handOffReceiverPort (procs w2 me2))]>
      (workers (procs w q)).
Proof.
  intros Hnet1 Hnet2 Hq w1 w2.
  destruct (registerWorker_stores env1 me1 q name definition1 w Hnet1 Hq)
    as (Hq1 & _ & Hws1).
  destruct (registerWorker_stores env2 me2 q name definition2 w1 Hnet2 Hq1)
    as (_ & Hport2 & Hws2).
  fold w1 in Hws1. fold w2 in Hws2, Hport2.
  rewrite Hws2, Hws1, Hport2. apply insert_insert_eq.
Qed.

Lemma registerWorker_last_write_wins_witness :
  workers (procs (world_of (registerWorker (quiet (Some 5001)) 1%nat "a" other_definition
                              world_owner)) 0%nat)
  = <["a" := spread_handOffReceiverPort other_definition (Some 5001)]> ∅.
Proof.
  pose proof (registerWorker_last_write_wins (quiet (Some 5000)) (quiet (Some 5001))
                0%nat 1%nat 0%nat "a" sample_definition other_definition
                (world_of (startWorkerRegistry (quiet None) 0%nat fresh_world))
                (fun _ => eq_refl) (fun _ => eq_refl) eq_refl) as Hlast.
  exact Hlast.
Defined.

(** X5: [registerWorker] never raises.  When the POST fails the call returns
    undefined and the failure is only logged: at debug level for connection
    refused or reset, which is what happens when nobody holds port 6284, and
    at error level for anything else. *)
Theorem registerWorker_never_raises (env : Env) (me : pid) (name : string)
    (definition : WorkerDefinition) (w : World) :
  let request := register_request name definition (port_after_listen env (procs w me)) in
  let run := registerWorker env me name definition w in
  (exists res, result_of run = Ok res)
  /\ (forall e, env_fault env request = Some (Throws e) ->
                result_of run = Ok None
                /\ last (trace_of run)
                   = Some (ELogger (if is_absence e then LDebug else LError)
                             register_failed_message (Some e)))
  /\ (env_fault env request = None ->
      registry_bound w = None ->
      result_of run = Ok None
      /\ last (trace_of run)
         = Some (ELogger LDebug register_failed_message (Some connection_refused))).
Proof.
  cbv zeta.
  destruct (registerWorker_run env me name definition w)
    as (w0 & _ & _ & Hbound & _ & Hrun).
  cbv zeta in Hrun. split; [| split].
  - rewrite Hrun. destruct (fetch env me _ w0) as [[[resp | e] w1] tf]; eexists; reflexivity.
  - intros e Hfault. rewrite Hrun, fetch_run, Hfault.
    unfold result_of, trace_of. cbn [fst snd register_outcome_events].
    split; [reflexivity |]. rewrite !app_assoc. apply last_snoc.
  - intros Hnet Hfree. rewrite Hrun, fetch_run, Hnet.
    rewrite deliver_registry by reflexivity. rewrite Hbound, Hfree.
    unfold result_of, trace_of. cbn [fst snd register_outcome_events].
    split; [reflexivity |].
    change (is_absence connection_refused) with true. cbv iota.
    rewrite !app_assoc. apply last_snoc.
Qed.

(** ** Unregistering *)

Lemma registry_app_unregister q name w :
  registry_app q (unregister_request name) w
  = (Ok (mkResponse 200 RNull),
     with_workers q (delete name (workers (procs w q))) w, []).
Proof. reflexivity. Qed.

(** X7: when a process that never started a registry unregisters a worker, the
    owner's registry loses that entry and nothing else (also when the name was
    not registered), the owner keeps port 6284, and the process closes its own
    receiver; the call sends the DELETE and nothing more. *)
Theorem unregisterWorker_by_client (env : Env) (me q : pid) (name : string) (w : World) :
  server (procs w me) = false ->
  registry_bound w = Some q ->
  env_fault env (unregister_request name) = None ->
  let run := unregisterWorker env me name w in
  result_of run = Ok tt
  /\ registry_bound (world_of run) = Some q
  /\ workers (procs (world_of run) q) = delete name (workers (procs w q))
  /\ (forall a, handOffReceiverServer (procs w me) = Some (Some a) ->
                receivers (world_of run) !! a <> Some me)
  /\ trace_of run
     = EFetch me (unregister_request name)
       :: match handOffReceiverServer (procs w me) with
          | Some _ => [ETerminate me Receiver]
          | None => []
          end.
Proof.
  intros Hserver Hq Hnet. cbv zeta.
  rewrite unregisterWorker_run.
  rewrite (fetch_delivered env me (unregister_request name) w q Hnet eq_refl Hq).
  rewrite registry_app_unregister. cbv iota beta.
  set (w1 := with_workers q (delete name (workers (procs w q))) w).
  destruct (with_workers_fields q (delete name (workers (procs w q))) w me)
    as (Hs1 & Hrs1 & _).
  fold w1 in Hs1, Hrs1.
  rewrite handOff_run. cbv zeta. rewrite Hs1, Hserver.
  unfold result_of, world_of, trace_of. cbn [fst snd].
  unfold shutdown_world, shutdown_events. rewrite Hs1, Hserver, Hrs1.
  split; [reflexivity |].
  destruct (handOffReceiverServer (procs w me)) as [address |] eqn:Haddr.
  - split; [exact Hq |]. split; [apply with_workers_lookup |]. split; [| reflexivity].
    intros a [= ->]. cbn. case_bool_decide as Hb; [| exact Hb].
    rewrite lookup_delete_eq. discriminate.
  - split; [exact Hq |]. split; [apply with_workers_lookup |]. split; [| reflexivity].
    intros a Ha. discriminate.
Qed.

Lemma unregisterWorker_by_client_witness :
  let run := unregisterWorker (quiet None) 1%nat "b" world_two in
  result_of run = Ok tt
  /\ registry_bound (world_of run) = Some 0%nat
  /\ workers (procs (world_of run) 0%nat) !! "b" = None
  /\ workers (procs (world_of run) 0%nat) !! "a"
     = Some (spread_handOffReceiverPort sample_definition (Some 5000)).
Proof.
  destruct (unregisterWorker_by_client (quiet None) 1%nat 0%nat "b" world_two)
    as (Hres & Hbound & Hws & _).
  - vm_compute. reflexivity.
  - vm_compute. reflexivity.
  - reflexivity.
  - cbv zeta. split; [exact Hres |]. split; [exact Hbound |].
    rewrite Hws. split; [apply lookup_delete_eq |].
    rewrite lookup_delete_ne by discriminate. vm_compute. reflexivity.
Defined.

(** X8: when the owner unregisters and no other process can take the registry
    over, the registry is given up: port 6284 is freed without any hand-off
    request, and a later [getRegisteredWorkers] returns undefined. *)
Theorem unregisterWorker_last_owner (env env' : Env) (me x : pid) (name : string)
    (w : World) :
  registry_bound w = Some me ->
  server (procs w me) = true ->
  env_fault env (unregister_request name) = None ->
  env_fault env' workers_request = None ->
  handOffableWorkers (delete name (workers (procs w me))) (handOffReceiverPort (procs w me))
  = [] ->
  let run := unregisterWorker env me name w in
  result_of run = Ok tt
  /\ registry_bound (world_of run) = None
  /\ result_of (getRegisteredWorkers env' x (world_of run)) = Ok None
  /\ trace_of run
     = [EFetch me (unregister_request name);
        ELogger LDebug no_candidate_message None;
        ETerminate me Registry]
       ++ match handOffReceiverServer (procs w me) with
          | Some _ => [ETerminate me Receiver]
          | None => []
          end.
Proof.
  intros Hq Hserver Hnet Hnet' Hnone. cbv zeta.
  rewrite unregisterWorker_run.
  rewrite (fetch_delivered env me (unregister_request name) w me Hnet eq_refl Hq).
  rewrite registry_app_unregister. cbv iota beta.
  set (w1 := with_workers me (delete name (workers (procs w me))) w).
  destruct (with_workers_fields me (delete name (workers (procs w me))) w me)
    as (Hs1 & Hrs1 & Hrp1).
  fold w1 in Hs1, Hrs1, Hrp1.
  assert (Hws1 : workers (procs w1 me) = delete name (workers (procs w me)))
    by apply with_workers_lookup.
  rewrite handOff_run. cbv zeta. rewrite Hs1, Hserver, Hws1, Hrp1, Hnone.
  cbn [length Nat.ltb Nat.leb].
  unfold result_of, world_of, trace_of. cbn [fst snd].
  assert (Hfree : registry_bound (shutdown_world me w1) = None).
  { unfold shutdown_world. rewrite Hs1, Hserver.
    assert (Hclosed : registry_bound (registry_closed me w1) = None).
    { cbn. rewrite bool_decide_eq_true_2 by exact Hq. reflexivity. }
    destruct (handOffReceiverServer (procs w1 me)); exact Hclosed. }
  split; [reflexivity |]. split; [exact Hfree |]. split.
  - now rewrite (getRegisteredWorkers_unreachable env' x _ Hnet' Hfree).
  - unfold shutdown_events. rewrite Hs1, Hserver, Hrs1. reflexivity.
Qed.

Lemma unregisterWorker_last_owner_witness :
  let run := unregisterWorker (quiet None) 0%nat "a" world_owner in
  result_of run = Ok tt
  /\ registry_bound (world_of run) = None
  /\ result_of (getRegisteredWorkers (quiet None) 1%nat (world_of run)) = Ok None.
Proof.
  destruct (unregisterWorker_last_owner (quiet None) (quiet None) 0%nat 1%nat "a" world_owner)
    as (Hres & Hbound & Hget & _); try (vm_compute; reflexivity).
  cbv zeta. auto.
Defined.

(** ** Receiving the request of [handOff] *)

Lemma handOffReceiverApp_handOff_request env q chosenHandOff ws w :
  handOffReceiverApp env q (handOff_request chosenHandOff ws) w =
  match startWorkerRegistry env q (with_workers q ∅ w) with
  | (Ok _, w2, t2) => (Ok (mkResponse 200 RNull), w2, t2)
  | (Throw _, w2, t2) => (Throw headers_timeout, w2, t2)
  end.
Proof.
  unfold handOffReceiverApp, handOff_request. cbn.
  unfold try_catch, bind. rewrite set_workers_run.
  destruct (startWorkerRegistry env q (with_workers q ∅ w)) as [[[[] | e] w2] t2]; cbn;
    rewrite ?app_nil_r; reflexivity.
Qed.

(** X10: when the owner hands off and the request reaches the receiver of the
    chosen candidate, a process that has not started a registry before, the
    candidate takes over port 6284; the registry it then serves is empty,
    since the request carried no JSON content type. *)
Theorem handOff_moves_ownership (env : Env) (me q : pid) (nm : string)
    (d : WorkerDefinition) (a : Z) (w : World) :
  let p := procs w me in
  let candidates := handOffableWorkers (workers p) (handOffReceiverPort p) in
  registry_bound w = Some me ->
  server p = true ->
  array_get candidates (chosen_index (env_random env) (length candidates)) = Some (nm, d) ->
  WD.handOffReceiverPort d = Some a ->
  a <> DEV_REGISTRY_PORT ->
  receivers w !! a = Some q ->
  server (procs w q) = false ->
  env_fault env (handOff_request d (workers p)) = None ->
  env_probe_error env = None ->
  let run := handOff env me w in
  result_of run = Ok tt
  /\ registry_bound (world_of run) = Some q
  /\ server (procs (world_of run) q) = true
  /\ workers (procs (world_of run) q) = ∅.
Proof.
  intros p candidates Hbound Hserver Hget Hport Ha Hq Hsq Hnet Hprobe. cbv zeta.
  assert (Hne : q <> me) by (intros ->; fold p in Hsq; congruence).
  assert (Hlen : Nat.ltb 0 (length candidates) = true).
  { apply Nat.ltb_lt. unfold array_get in Hget.
    destruct (Z.ltb _ 0); [discriminate |].
    apply lookup_lt_Some in Hget. lia. }
  assert (Hfree : registry_bound (with_workers q ∅ (registry_closed me w)) = None).
  { cbn. rewrite bool_decide_eq_true_2 by exact Hbound. reflexivity. }
  assert (Hsq' : server (procs (with_workers q ∅ (registry_closed me w)) q) = false).
  { destruct (with_workers_fields q ∅ (registry_closed me w) q) as (-> & _). exact Hsq. }
  assert (Hdeliver : deliver env (handOff_request d (workers p)) (registry_closed me w)
                     = (Ok (mkResponse 200 RNull),
                        with_registry q (with_workers q ∅ (registry_closed me w)),
                        [EProbe q; EBind q])).
  { unfold deliver.
    replace (url_port (req_url (handOff_request d (workers p)))) with a
      by (cbn; rewrite Hport; reflexivity).
    destruct (Z.eqb_spec a DEV_REGISTRY_PORT) as [Heq | _]; [contradiction |].
    change (receivers (registry_closed me w)) with (receivers w). rewrite Hq.
    rewrite handOffReceiverApp_handOff_request, startWorkerRegistry_run, Hprobe.
    rewrite Hfree, Hsq'. rewrite bool_decide_eq_true_2 by reflexivity. reflexivity. }
  rewrite handOff_run. cbv zeta. fold p. rewrite Hserver. fold candidates.
  rewrite Hlen, Hget, fetch_run, Hnet, Hdeliver.
  set (w2 := with_registry q (with_workers q ∅ (registry_closed me w))).
  unfold result_of, world_of. cbn [fst snd].
  assert (Hq2 : procs w2 q = mkProc true ∅ (handOffReceiverServer (procs w q))
                                 (handOffReceiverPort (procs w q))).
  { unfold w2. cbn. rewrite !upd_same. reflexivity. }
  assert (Hbound2 : registry_bound w2 = Some q) by reflexivity.
  assert (Hprocs : procs (shutdown_world me w2) = procs w2).
  { unfold shutdown_world.
    destruct (server (procs w2 me)), (handOffReceiverServer (procs w2 me)); reflexivity. }
  assert (Hkept : registry_bound (shutdown_world me w2) = Some q).
  { unfold shutdown_world.
    assert (Hclosed : registry_bound (registry_closed me w2) = Some q).
    { cbn. rewrite bool_decide_eq_false_2; [reflexivity |]. intros [= Heq]. auto. }
    destruct (server (procs w2 me)), (handOffReceiverServer (procs w2 me));
      first [exact Hclosed | exact Hbound2]. }
  split; [reflexivity |]. split; [exact Hkept |].
  rewrite Hprocs, Hq2. split; reflexivity.
Qed.

Lemma handOff_moves_ownership_witness :
  let run := handOff (quiet None) 0%nat world_two in
  result_of run = Ok tt
  /\ registry_bound (world_of run) = Some 1%nat
  /\ workers (procs (world_of run) 1%nat) = ∅.
Proof.
  destruct (handOff_moves_ownership (quiet None) 0%nat 1%nat "b"
              (spread_handOffReceiverPort sample_definition (Some 5001)) 5001 world_two)
    as (Hres & Hbound & _ & Hws); try (vm_compute; reflexivity).
  - discriminate.
  - cbv zeta. auto.
Defined.

(** ** What a hand-off does to the registries *)

Lemma emptied_or_kept_refl w : emptied_or_kept w w.
Proof. intros x. right. auto. Qed.

Lemma emptied_or_kept_trans w1 w2 w3 :
  emptied_or_kept w1 w2 -> emptied_or_kept w2 w3 -> emptied_or_kept w1 w3.
Proof.
  intros H12 H23 x. destruct (H23 x) as [Hempty | [Hsame Hb]]; [now left |].
  destruct (H12 x) as [Hempty | [Hsame' Hb']].
  - left. congruence.
  - right. split; [congruence | auto].
Qed.

Lemma emptied_or_kept_registry_closed me w : emptied_or_kept w (registry_closed me w).
Proof.
  intros x. right. split; [reflexivity |]. cbn. case_bool_decide; [discriminate | auto].
Qed.

Lemma emptied_or_kept_shutdown_world me w : emptied_or_kept w (shutdown_world me w).
Proof.
  intros x. right. unfold shutdown_world.
  destruct (server (procs w me)), (handOffReceiverServer (procs w me)); cbn;
    (split; [reflexivity |]); try case_bool_decide; try discriminate; auto.
Qed.

Lemma registry_app_handOff_request q chosenHandOff ws w :
  registry_app q (handOff_request chosenHandOff ws) w = (Ok not_found, w, []).
Proof. reflexivity. Qed.

Lemma fetch_handOff_request_emptied env me chosenHandOff ws w r w' t :
  fetch env me (handOff_request chosenHandOff ws) w = (r, w', t) ->
  emptied_or_kept w w'.
Proof.
  rewrite fetch_run. destruct (env_fault env _) as [[err | resp] |].
  - intros [= <- <- <-]. apply emptied_or_kept_refl.
  - intros [= <- <- <-]. apply emptied_or_kept_refl.
  - unfold deliver. destruct (Z.eqb _ _).
    + destruct (registry_bound w) as [q |].
      * rewrite registry_app_handOff_request. intros [= <- <- <-].
        apply emptied_or_kept_refl.
      * intros [= <- <- <-]. apply emptied_or_kept_refl.
    + destruct (receivers w !! _) as [q |].
      * rewrite handOffReceiverApp_handOff_request, startWorkerRegistry_run.
        assert (Hstored : emptied_or_kept w (with_workers q ∅ w)).
        { intros x. destruct (Nat.eq_dec x q) as [-> | Hne].
          - left. apply with_workers_lookup.
          - right. cbn. rewrite upd_other by exact Hne. auto. }
        assert (Hstarted : emptied_or_kept w (with_registry q (with_workers q ∅ w))).
        { intros x. destruct (Nat.eq_dec x q) as [-> | Hne].
          - left. cbn. rewrite !upd_same. reflexivity.
          - right. cbn. rewrite !upd_other by exact Hne. split; [reflexivity |].
            intros [= Heq]. congruence. }
        destruct (env_probe_error env).
        -- intros [= <- <- <-]. exact Hstored.
        -- destruct (_ && _); intros [= <- <- <-]; assumption.
      * intros [= <- <- <-]. apply emptied_or_kept_refl.
Qed.

(** The world [handOff] ends in: the one it started in, or the shutdown of a
    world in which requests were handled. *)
Lemma handOff_world env me w :
  exists w1,
    handled w w1 /\ emptied_or_kept w w1
    /\ (world_of (handOff env me w) = w \/ world_of (handOff env me w) = shutdown_world me w1).
Proof.
  rewrite handOff_run. cbv zeta.
  destruct (server (procs w me));
    [| exists w; split; [apply handled_refl | split; [apply emptied_or_kept_refl | now right]]].
  destruct (Nat.ltb 0 _);
    [| exists w; split; [apply handled_refl | split; [apply emptied_or_kept_refl | now right]]].
  destruct (array_get _ _) as [[nm d] |];
    [| exists w; split; [apply handled_refl | split; [apply emptied_or_kept_refl | now left]]].
  destruct (fetch env me _ _) as [[r w1] tf] eqn:Hfetch.
  exists w1. split; [| split; [| now right]].
  - eapply handled_trans; [apply handled_registry_closed | eapply fetch_handled, Hfetch].
  - eapply emptied_or_kept_trans; [apply emptied_or_kept_registry_closed |].
    eapply fetch_handOff_request_emptied, Hfetch.
Qed.

Lemma handOff_emptied_or_kept env me w :
  emptied_or_kept w (world_of (handOff env me w)).
Proof.
  destruct (handOff_world env me w) as (w1 & _ & Hkept & [-> | ->]).
  - apply emptied_or_kept_refl.
  - eapply emptied_or_kept_trans; [exact Hkept | apply emptied_or_kept_shutdown_world].
Qed.

(** The world [unregisterWorker] ends in, when the DELETE was answered. *)
Lemma unregisterWorker_world env me name w resp w1 t1 :
  fetch env me (unregister_request name) w = (Ok resp, w1, t1) ->
  world_of (unregisterWorker env me name w) = world_of (handOff env me w1).
Proof.
  intros Hfetch. rewrite unregisterWorker_run, Hfetch.
  destruct (handOff env me w1) as [[[[] | e] w2] t2]; reflexivity.
Qed.

(** X9: after [unregisterWorker name], with a network that delivers the
    DELETE, a later [getRegisteredWorkers] shows no registry at all or a
    registry without [name]; it never shows [name], whoever holds port 6284
    by then and whatever became of the hand-off. *)
Theorem unregisterWorker_then_get_absent (env env' : Env) (me x : pid) (name : string)
    (w : World) :
  env_fault env (unregister_request name) = None ->
  env_fault env' workers_request = None ->
  let w' := world_of (unregisterWorker env me name w) in
  match result_of (getRegisteredWorkers env' x w') with
  | Ok (Some reg) => reg !! name = None
  | Ok None => registry_bound w' = None
  | Throw _ => False
  end.
Proof.
  intros Hnet Hnet'. cbv zeta.
  destruct (registry_bound w) as [q |] eqn:Hq.
  - pose proof (fetch_delivered env me (unregister_request name) w q Hnet eq_refl Hq)
      as Hfetch.
    rewrite registry_app_unregister in Hfetch. cbv iota beta in Hfetch.
    set (w1 := with_workers q (delete name (workers (procs w q))) w) in *.
    rewrite (unregisterWorker_world _ _ _ _ _ _ _ Hfetch).
    pose proof (handOff_emptied_or_kept env me w1) as Hkept.
    set (w2 := world_of (handOff env me w1)) in *.
    destruct (registry_bound w2) as [q2 |] eqn:Hq2.
    + rewrite (getRegisteredWorkers_reachable env' x w2 q2 Hnet' Hq2).
      unfold result_of. cbn [fst].
      destruct (Hkept q2) as [-> | [-> Hb]]; [apply lookup_empty |].
      specialize (Hb Hq2). change (registry_bound w1) with (registry_bound w) in Hb.
      assert (q2 = q) by congruence. subst q2.
      unfold w1. rewrite with_workers_lookup. apply lookup_delete_eq.
    + rewrite (getRegisteredWorkers_unreachable env' x w2 Hnet' Hq2). reflexivity.
  - assert (Hrun : unregisterWorker env me name w
                   = (Ok tt, w, [EFetch me (unregister_request name)] ++ [])).
    { rewrite unregisterWorker_run, fetch_run, Hnet.
      rewrite deliver_registry by reflexivity. rewrite Hq. reflexivity. }
    rewrite Hrun. unfold world_of. cbn [fst snd].
    rewrite (getRegisteredWorkers_unreachable env' x w Hnet' Hq). exact Hq.
Qed.

Lemma unregisterWorker_then_get_absent_witness :
  exists reg,
    result_of (getRegisteredWorkers (quiet None) 1%nat
                 (world_of (unregisterWorker (quiet None) 0%nat "a" world_two)))
    = Ok (Some reg)
    /\ reg !! "a" = None.
Proof.
  pose proof (unregisterWorker_then_get_absent (quiet None) (quiet None) 0%nat 1%nat "a"
                world_two eq_refl eq_refl) as Habsent.
  cbv zeta in Habsent.
  destruct (result_of (getRegisteredWorkers (quiet None) 1%nat
                         (world_of (unregisterWorker (quiet None) 0%nat "a" world_two))))
    as [[reg |] | e] eqn:Hget.
  - exists reg. split; [reflexivity | exact Habsent].
  - exfalso. vm_compute in Hget. discriminate.
  - contradiction.
Defined.

(** ** Receivers of earlier registrations *)

Lemma registerWorker_receivers env me name definition w :
  let w1 := world_of (registerWorker env me name definition w) in
  receivers w1 = match env_listen env with
                 | Some a => <[a := me]> (receivers w)
                 | None => receivers w
                 end
  /\ handOffReceiverServer (procs w1 me) = Some (env_listen env).
Proof.
  cbv zeta.
  destruct (registerWorker_run env me name definition w)
    as (w0 & Hme & _ & _ & Hreceivers & Hrun).
  cbv zeta in Hrun.
  destruct (fetch env me _ w0) as [[r w1] tf] eqn:Hfetch.
  apply fetch_registry_frame in Hfetch as (_ & _ & Hr1 & Hfields); [| reflexivity].
  rewrite Hrun. unfold world_of. cbn [fst snd].
  split; [congruence |].
  destruct (Hfields me) as (_ & -> & _). now rewrite Hme.
Qed.

Lemma shutdown_world_receivers_other me w a :
  handOffReceiverServer (procs w me) <> Some (Some a) ->
  receivers (shutdown_world me w) !! a = receivers w !! a.
Proof.
  intros Hother. unfold shutdown_world.
  destruct (handOffReceiverServer (procs w me)) as [[b |] |];
    destruct (server (procs w me)); cbn; try reflexivity;
    case_bool_decide; try reflexivity;
    (rewrite lookup_delete_ne; [reflexivity | intros ->; now apply Hother]).
Qed.

Lemma unregisterWorker_receivers_other env me name w a :
  handOffReceiverServer (procs w me) <> Some (Some a) ->
  receivers (world_of (unregisterWorker env me name w)) !! a = receivers w !! a.
Proof.
  intros Hother. rewrite unregisterWorker_run.
  destruct (fetch env me (unregister_request name) w) as [[[resp | e] w1] t1] eqn:Hfetch.
  - pose proof (fetch_handled _ _ _ _ _ _ _ Hfetch) as Hh1.
    destruct (handOff_world env me w1) as (w2 & Hh2 & _ & Hworld).
    assert (Hgoal : receivers (world_of (handOff env me w1)) !! a = receivers w !! a).
    { destruct Hworld as [-> | ->].
      - now rewrite (handled_receivers _ _ Hh1).
      - rewrite shutdown_world_receivers_other.
        + now rewrite (handled_receivers _ _ Hh2), (handled_receivers _ _ Hh1).
        + now rewrite (handled_receiver_server _ _ Hh2), (handled_receiver_server _ _ Hh1). }
    destruct (handOff env me w1) as [[[[] | e] w3] t3]; exact Hgoal.
  - apply fetch_handled in Hfetch. unfold world_of. cbn [fst snd].
    now rewrite (handled_receivers _ _ Hfetch).
Qed.

(** X12: each [registerWorker] opens a new receiver and forgets the one before
    it: after two registrations of one process both ports listen, and
    [unregisterWorker] never closes the earlier one, whatever happens to the
    DELETE and to the hand-off. *)
Theorem earlier_receiver_stays_open (env1 env2 env3 : Env) (me : pid)
    (name1 name2 name3 : string) (definition1 definition2 : WorkerDefinition)
    (a b : Z) (w : World) :
  env_listen env1 = Some a ->
  env_listen env2 = Some b ->
  a <> b ->
  let w1 := world_of (registerWorker env1 me name1 definition1 w) in
  let w2 := world_of (registerWorker env2 me name2 definition2 w1) in
  let w3 := world_of (unregisterWorker env3 me name3 w2) in
  receivers w2 !! a = Some me
  /\ receivers w2 !! b = Some me
  /\ receivers w3 !! a = Some me.
Proof.
  intros Ha Hb Hab w1 w2 w3.
  destruct (registerWorker_receivers env1 me name1 definition1 w) as [Hr1 _].
  destruct (registerWorker_receivers env2 me name2 definition2 w1) as [Hr2 Hs2].
  fold w1 in Hr1, Hr2, Hs2. fold w2 in Hr2, Hs2. rewrite Ha in Hr1. rewrite Hb in Hr2, Hs2.
  assert (Ha2 : receivers w2 !! a = Some me).
  { rewrite Hr2, lookup_insert_ne by congruence. rewrite Hr1. apply lookup_insert_eq. }
  split; [exact Ha2 |]. split; [rewrite Hr2; apply lookup_insert_eq |].
  unfold w3. rewrite unregisterWorker_receivers_other; [exact Ha2 |].
  rewrite Hs2. congruence.
Qed.

Lemma earlier_receiver_stays_open_witness :
  receivers
    (world_of (unregisterWorker (quiet None) 0%nat "c"
                 (world_of (registerWorker (quiet (Some 5002)) 0%nat "c" other_definition
                              world_owner)))) !! 5000
  = Some 0%nat.
Proof.
  refine (proj2 (proj2
            (earlier_receiver_stays_open (quiet (Some 5000)) (quiet (Some 5002)) (quiet None)
               0%nat "a" "c" "c" sample_definition other_definition 5000 5002
               (world_of (startWorkerRegistry (quiet None) 0%nat fresh_world))
               eq_refl eq_refl _))).
  discriminate.
Defined.

(** ** The invariant of the exported functions *)

(** X13: in every world the exported functions can reach, the process that
    holds port 6284 has its [server] handle set, so [stopWorkerRegistry] of
    the owner always frees the port: the invariant holds before any call and
    every exported function keeps it. *)
Theorem owner_has_handle_invariant (w : World) :
  owner_has_handle w ->
  (forall env me, owner_has_handle (world_of (startWorkerRegistry env me w)))
  /\ (forall env me name definition,
         owner_has_handle (world_of (registerWorker env me name definition w)))
  /\ (forall env me name, owner_has_handle (world_of (unregisterWorker env me name w)))
  /\ (forall env me, owner_has_handle (world_of (getRegisteredWorkers env me w)))
  /\ (forall env me services durableObjects,
         owner_has_handle
           (world_of (getBoundRegisteredWorkers env me services durableObjects w)))
  /\ forall me, registry_bound (world_of (stopWorkerRegistry me w)) <> Some me.
Proof.
  intros Hinv. repeat split.
  - intros env me. now apply startWorkerRegistry_owner_has_handle.
  - intros env me name definition. now apply registerWorker_owner_has_handle.
  - intros env me name. now apply unregisterWorker_owner_has_handle.
  - intros env me. now rewrite getRegisteredWorkers_world.
  - intros env me services durableObjects.
    rewrite getBoundRegisteredWorkers_run.
    pose proof (getRegisteredWorkers_world env me w) as Hw.
    destruct (getRegisteredWorkers env me w) as [[[reg | e] w1] t1];
      unfold world_of in *; cbn in Hw |- *; now subst w1.
  - intros me. rewrite stopWorkerRegistry_run.
    destruct (server (procs w me)) eqn:Hs; unfold world_of; cbn [fst snd].
    + cbn. case_bool_decide; [discriminate | assumption].
    + intros Hb. specialize (Hinv me Hb). congruence.
Qed.

Lemma owner_has_handle_invariant_witness :
  owner_has_handle fresh_world
  /\ owner_has_handle
       (world_of (registerWorker (quiet (Some 5000)) 0%nat "a" sample_definition fresh_world)).
Proof.
  split; [apply owner_has_handle_fresh |].
  apply (owner_has_handle_invariant fresh_world owner_has_handle_fresh).
Defined.

(** ** Filtering without bindings *)

(** X14: with no service binding and no durable-object binding that names a
    script, [getBoundRegisteredWorkers] returns the empty mapping whatever the
    registry holds; it still sends the GET, and an error of the GET is still
    raised. *)
Theorem getBoundRegisteredWorkers_without_bindings (env : Env) (me : pid)
    (services : option (list ServiceBinding))
    (durableObjects : option DurableObjectsConfig) (w : World) :
  default [] services = [] ->
  Forall (fun b => script_name b = None)
         (bindings (default (mkDurableObjectsConfig []) durableObjects)) ->
  result_of (getBoundRegisteredWorkers env me services durableObjects w)
  = match result_of (getRegisteredWorkers env me w) with
    | Ok _ => Ok ∅
    | Throw e => Throw e
    end
  /\ trace_of (getBoundRegisteredWorkers env me services durableObjects w)
     = [EFetch me workers_request].
Proof.
  intros Hservices Hscripts.
  rewrite getBoundRegisteredWorkers_run, Hservices.
  assert (Hnone : forall entry : string * WorkerDefinition,
             bound_to (List.map service [])
               (List.map script_name
                  (bindings (default (mkDurableObjectsConfig []) durableObjects))) entry
             = false).
  { intros entry. unfold bound_to. cbn [List.map existsb orb].
    induction Hscripts as [| b bs Hb _ IH]; [reflexivity |].
    cbn [List.map existsb]. rewrite Hb. exact IH. }
  assert (Hfilter : forall l : list (string * WorkerDefinition),
             List.filter
               (bound_to (List.map service [])
                  (List.map script_name
                     (bindings (default (mkDurableObjectsConfig []) durableObjects)))) l
             = []).
  { induction l as [| entry l IH]; [reflexivity |]. cbn [List.filter].
    now rewrite Hnone. }
  assert (Htrace : trace_of (getRegisteredWorkers env me w) = [EFetch me workers_request]).
  { rewrite getRegisteredWorkers_run.
    destruct (fetch env me workers_request w) as [[r w1] t1] eqn:Hfetch.
    apply fetch_registry_frame in Hfetch as (-> & _); [| reflexivity].
    destruct r as [resp | e]; [destruct (resp_body resp) |]; reflexivity. }
  destruct (getRegisteredWorkers env me w) as [[[reg | e] w1] t1];
    unfold result_of, trace_of in *; cbn [fst snd] in *.
  - rewrite Hfilter. split; [reflexivity | exact Htrace].
  - split; [reflexivity | exact Htrace].
Qed.

Lemma getBoundRegisteredWorkers_without_bindings_witness :
  result_of (getBoundRegisteredWorkers (quiet None) 1%nat None
               (Some (mkDurableObjectsConfig [mkDurableObjectBinding None])) world_two)
  = Ok ∅.
Proof.
  destruct (getBoundRegisteredWorkers_without_bindings (quiet None) 1%nat None
              (Some (mkDurableObjectsConfig [mkDurableObjectBinding None])) world_two)
    as [Hres _].
  - reflexivity.
  - repeat constructor.
  - rewrite Hres. vm_compute. reflexivity.
Defined.

(** ** Registrations and hand-offs that are lost *)

Lemma procs_shutdown_world me w : procs (shutdown_world me w) = procs w.
Proof.
  unfold shutdown_world.
  destruct (server (procs w me)), (handOffReceiverServer (procs w me)); reflexivity.
Qed.

(** X6: a [registerWorker] made while nobody holds port 6284 is dropped: the
    call returns undefined, no registry anywhere gains the entry, and the
    call does not start a registry either, so when this process starts one
    afterwards it serves the registry it had before the call. *)
Theorem registerWorker_without_registry_is_dropped (env env' : Env) (me : pid)
    (name : string) (definition : WorkerDefinition) (w : World) :
  registry_bound w = None ->
  server (procs w me) = false ->
  env_fault env (register_request name definition (port_after_listen env (procs w me)))
  = None ->
  env_probe_error env' = None ->
  env_fault env' workers_request = None ->
  let run := registerWorker env me name definition w in
  let started := world_of (startWorkerRegistry env' me (world_of run)) in
  result_of run = Ok None
  /\ registry_bound (world_of run) = None
  /\ (forall x, workers (procs (world_of run) x) = workers (procs w x))
  /\ result_of (getRegisteredWorkers env' me started) = Ok (Some (workers (procs w me))).
Proof.
  intros Hfree Hserver Hnet Hprobe Hnet'. cbv zeta.
  destruct (registerWorker_run env me name definition w)
    as (w0 & Hme & Hothers & Hbound & _ & Hrun).
  cbv zeta in Hrun. rewrite fetch_run, Hnet in Hrun.
  rewrite deliver_registry in Hrun by reflexivity.
  rewrite Hbound, Hfree in Hrun. cbv iota beta in Hrun.
  rewrite Hrun. unfold result_of, world_of. cbn [fst snd].
  assert (Hws : forall x, workers (procs w0 x) = workers (procs w x)).
  { intros x. destruct (Nat.eq_dec x me) as [-> | Hne];
      [now rewrite Hme | now rewrite Hothers]. }
  split; [reflexivity |]. split; [congruence |]. split; [exact Hws |].
  rewrite startWorkerRegistry_run, Hprobe.
  assert (Hfree0 : registry_bound w0 = None) by congruence.
  assert (Hserver0 : server (procs w0 me) = false) by now rewrite Hme.
  rewrite Hfree0, Hserver0. cbn [bool_decide andb negb fst snd].
  rewrite bool_decide_eq_true_2 by reflexivity. cbn [andb fst snd].
  rewrite (getRegisteredWorkers_reachable env' me (with_registry me w0) me Hnet' eq_refl).
  cbn [fst]. cbn. rewrite upd_same. cbn. now rewrite Hws.
Qed.

Lemma registerWorker_without_registry_is_dropped_witness :
  result_of (registerWorker (quiet (Some 5000)) 0%nat "a" sample_definition fresh_world)
  = Ok None
  /\ result_of
       (getRegisteredWorkers (quiet None) 0%nat
          (world_of (startWorkerRegistry (quiet None) 0%nat world_no_registry)))
     = Ok (Some ∅).
Proof.
  destruct (registerWorker_without_registry_is_dropped (quiet (Some 5000)) (quiet None)
              0%nat "a" sample_definition fresh_world)
    as (Hres & _ & _ & Hget); try reflexivity.
  split; [exact Hres | exact Hget].
Defined.

(** X11: when the hand-off request fails, because the network fails it or
    because nothing listens on the candidate's port any more, the registry is
    lost: the error is printed, [handOff] returns without raising, and
    afterwards nobody holds port 6284. *)
Theorem handOff_failed_request_loses_registry (env : Env) (me : pid) (nm : string)
    (d : WorkerDefinition) (a : Z) (e : Error) (w : World) :
  let p := procs w me in
  let candidates := handOffableWorkers (workers p) (handOffReceiverPort p) in
  registry_bound w = Some me ->
  server p = true ->
  array_get candidates (chosen_index (env_random env) (length candidates)) = Some (nm, d) ->
  WD.handOffReceiverPort d = Some a ->
  env_fault env (handOff_request d (workers p)) = Some (Throws e)
  \/ (env_fault env (handOff_request d (workers p)) = None
      /\ a <> DEV_REGISTRY_PORT /\ receivers w !! a = None /\ e = connection_refused) ->
  let run := handOff env me w in
  result_of run = Ok tt
  /\ registry_bound (world_of run) = None
  /\ procs (world_of run) = procs w
  /\ EConsoleError e ∈ trace_of run.
Proof.
  intros p candidates Hbound Hserver Hget Hport Hfail. cbv zeta.
  assert (Hlen : Nat.ltb 0 (length candidates) = true).
  { apply Nat.ltb_lt. unfold array_get in Hget.
    destruct (Z.ltb _ 0); [discriminate |].
    apply lookup_lt_Some in Hget. lia. }
  assert (Hfetch : fetch env me (handOff_request d (workers p)) (registry_closed me w)
                   = (Throw e, registry_closed me w,
                      [EFetch me (handOff_request d (workers p))])).
  { rewrite fetch_run. destruct Hfail as [-> | (-> & Ha & Hnone & ->)]; [reflexivity |].
    unfold deliver.
    replace (url_port (req_url (handOff_request d (workers p)))) with a
      by (cbn; rewrite Hport; reflexivity).
    destruct (Z.eqb_spec a DEV_REGISTRY_PORT) as [Heq | _]; [contradiction |].
    change (receivers (registry_closed me w)) with (receivers w). rewrite Hnone.
    reflexivity. }
  rewrite handOff_run. cbv zeta. fold p. rewrite Hserver. fold candidates.
  rewrite Hlen, Hget, Hfetch.
  unfold result_of, world_of, trace_of. cbn [fst snd].
  split; [reflexivity |]. split; [| split].
  - unfold shutdown_world.
    assert (Hclosed : registry_bound (registry_closed me w) = None).
    { cbn. rewrite bool_decide_eq_true_2 by exact Hbound. reflexivity. }
    assert (Hclosed2 : registry_bound (registry_closed me (registry_closed me w)) = None).
    { cbn. rewrite (bool_decide_eq_true_2 _ Hbound). case_bool_decide; reflexivity. }
    destruct (server (procs (registry_closed me w) me)),
      (handOffReceiverServer (procs (registry_closed me w) me)); assumption.
  - now rewrite procs_shutdown_world.
  - cbn [handOff_outcome_event]. rewrite !elem_of_app. right. right. left.
    apply list_elem_of_here.
Qed.

Lemma handOff_failed_request_loses_registry_witness :
  let env := mkEnv None (1 # 2) (fun _ => Some (Throws headers_timeout)) None in
  result_of (handOff env 0%nat world_two) = Ok tt
  /\ registry_bound (world_of (handOff env 0%nat world_two)) = None.
Proof.
  cbv zeta.
  destruct (handOff_failed_request_loses_registry
              (mkEnv None (1 # 2) (fun _ => Some (Throws headers_timeout)) None)
              0%nat "b" (spread_handOffReceiverPort sample_definition (Some 5001)) 5001
              headers_timeout world_two)
    as (Hres & Hbound & _); try (vm_compute; reflexivity).
  - left. reflexivity.
  - split; assumption.
Defined.
